(** * bundle_server.py: the server bundling script of the Python SDK

    The script [sdks/python/bundle_server.py] copies the built server of the
    [core] package into the Python package.  Everything it does is a sequence
    of calls on the file system, so the development models

    - the file system as a tree of regular files and directories (no links,
      no permissions, no special files: the faults those bring are outside
      the model);
    - the calls of [pathlib], [shutil] and [print] the script makes, each
      with the exceptions it raises on the kinds of entries it meets;
    - the script itself, statement by statement, in a state and exception
      monad over the file system and the two output streams.  *)

From stdpp Require Import gmap strings list fin_maps.

#[local] Set Warnings "-register-all".
#[local] Open Scope string_scope.
#[local] Open Scope list_scope.

(** ** The file system *)

(** An entry is a regular file with its bytes or a directory mapping names to
    entries. *)
Inductive node : Type :=
  | File (data : string)
  | Dir (entries : gmap string node).

(** A path is the list of its components below the file system root; the
    model only has absolute paths, as [__file__] of a script run by
    Python 3.9 or later is. *)
Abbreviation path := (list string).

(** [PurePath.parent]: the root is its own parent. *)
Definition parent (p : path) : path := removelast p.

(** [PurePath.parents]: the root and every directory on the way to [p],
    [p] itself left out. *)
Fixpoint parents (p : path) : list path :=
  match p with
  | [] => []
  | x :: q => [] :: (cons x <$> parents q)
  end.

(** [PurePath.name]: the last component, empty for the root. *)
Definition name (p : path) : string := default "" (last p).

(** [p / x] of pathlib. *)
Notation "p </> x" := (p ++ [x]) (at level 45, left associativity).

(** [str(p)] for an absolute path. *)
Definition str (p : path) : string := "/" +:+ String.concat "/" p.

(** What [os.stat] finds at [p], following the directories from the entry
    [n]. *)
Fixpoint lookup_path (p : path) (n : node) : option node :=
  match p with
  | [] => Some n
  | x :: q =>
      match n with
      | Dir m => m !! x ≫= lookup_path q
      | File _ => None
      end
  end.

Definition is_some {A} (o : option A) : bool :=
  match o with Some _ => true | None => false end.

Definition is_dir_node (o : option node) : bool :=
  match o with Some (Dir _) => true | _ => false end.

Definition is_file_node (o : option node) : bool :=
  match o with Some (File _) => true | _ => false end.

(** Two paths diverge when they differ at a component both have: neither is
    at or below the other. *)
Fixpoint diverge (p q : path) : bool :=
  match p, q with
  | a :: p', b :: q' => if decide (a = b) then diverge p' q' else true
  | _, _ => false
  end.

(** The exceptions of the model, all of them [OSError]s of Python. *)
Inductive exn : Type :=
  | FileNotFoundError
  | FileExistsError
  | NotADirectoryError
  | IsADirectoryError
  | SameFileError
  | PermissionError.

(** A system call on the entry named by [p]: the kernel walks the directories
    of [p] ([ENOTDIR] when a component on the way is a file, [ENOENT] when it
    is missing), then [f] decides about the last component: it gets what is
    there and answers with an error, or with what shall be there. *)
Fixpoint at_path (f : option node → exn + option node) (p : path)
    (o : option node) : exn + option node :=
  match p with
  | [] => f o
  | x :: q =>
      match o with
      | None => inl FileNotFoundError
      | Some (File _) => inl NotADirectoryError
      | Some (Dir m) =>
          match at_path f q (m !! x) with
          | inl e => inl e
          | inr v => inr (Some (Dir (partial_alter (λ _, v) x m)))
          end
      end
  end.

(** The call on a whole file system; the root itself cannot be removed. *)
Definition os_op (f : option node → exn + option node) (p : path)
    (n : node) : exn + node :=
  match at_path f p (Some n) with
  | inl e => inl e
  | inr (Some n') => inr n'
  | inr None => inl PermissionError
  end.

(** [os.mkdir]: the entry must not exist. *)
Definition mkdir_entry (o : option node) : exn + option node :=
  match o with
  | Some _ => inl FileExistsError
  | None => inr (Some (Dir ∅))
  end.

(** [os.unlink]: the entry must be a file. *)
Definition unlink_entry (o : option node) : exn + option node :=
  match o with
  | None => inl FileNotFoundError
  | Some (Dir _) => inl IsADirectoryError
  | Some (File _) => inr None
  end.

(** [shutil.rmtree]: the entry must be a directory; it goes with all it
    holds. *)
Definition rmtree_entry (o : option node) : exn + option node :=
  match o with
  | None => inl FileNotFoundError
  | Some (File _) => inl NotADirectoryError
  | Some (Dir _) => inr None
  end.

(** [open(p, 'wb')] and writing [data]: creates or truncates a file. *)
Definition write_entry (data : string) (o : option node) : exn + option node :=
  match o with
  | Some (Dir _) => inl IsADirectoryError
  | _ => inr (Some (File data))
  end.

(** [Path.touch()]: an entry that exists only has its times updated, a
    missing one becomes an empty file. *)
Definition touch_entry (o : option node) : exn + option node :=
  match o with
  | Some n => inr (Some n)
  | None => inr (Some (File ""))
  end.

(** Putting an entry in place, whatever was there. *)
Definition put_entry (c : node) (o : option node) : exn + option node :=
  inr (Some c).

(** [mkdir(parents=True, exist_ok=True)] and [os.makedirs]: every missing
    directory on the way to [p] and [p] itself are created; a file on the way
    is [ENOTDIR], a file at [p] is [EEXIST]. *)
Fixpoint makedirs (p : path) (o : option node) : exn + node :=
  match o with
  | Some (File _) =>
      inl (match p with [] => FileExistsError | _ => NotADirectoryError end)
  | Some (Dir m) =>
      match p with
      | [] => inr (Dir m)
      | x :: q =>
          match makedirs q (m !! x) with
          | inl e => inl e
          | inr c => inr (Dir (<[x:=c]> m))
          end
      end
  | None =>
      match p with
      | [] => inr (Dir ∅)
      | x :: q =>
          match makedirs q None with
          | inl e => inl e
          | inr c => inr (Dir {[x:=c]})
          end
      end
  end.

(** What [shutil.copytree] builds from the tree it reads: directories are
    made anew, files are copied with their bytes. *)
Fixpoint copy_node (n : node) : node :=
  match n with
  | File d => File d
  | Dir m => Dir (copy_node <$> m)
  end.

(** The subtree at [p] replaced by [c]; nothing changes when [p] does not
    exist. *)
Fixpoint graft (p : path) (c : node) (n : node) : node :=
  match p with
  | [] => c
  | x :: q =>
      match n with
      | Dir m =>
          match m !! x with
          | Some d => Dir (<[x:=graft q c d]> m)
          | None => n
          end
      | File _ => n
      end
  end.

(** A measure for induction on entries. *)
Fixpoint node_size (n : node) : nat :=
  match n with
  | File _ => 1
  | Dir m => S (map_fold (λ _ k acc, k + acc) 0 (node_size <$> m))
  end.

(** ** The interpreter state and the calls of the script *)

(** The world of a run: the file system and what has been printed so far. *)
Record world : Type := World {
  fs : node;
  stdout : list string;
  stderr : list string
}.

(** A statement returns a value or raises; the world goes on in both cases. *)
Inductive result (A : Type) : Type :=
  | Ok (a : A) (w : world)
  | Raise (e : exn) (w : world).
Arguments Ok {A} a w.
Arguments Raise {A} e w.

Definition M (A : Type) : Type := world → result A.

Definition ret {A} (a : A) : M A := λ w, Ok a w.

Definition raise {A} (e : exn) : M A := λ w, Raise e w.

Definition bind {A B} (c : M A) (k : A → M B) : M B :=
  λ w, match c w with
       | Ok a w' => k a w'
       | Raise e w' => Raise e w'
       end.

Declare Scope prog_scope.
Delimit Scope prog_scope with prog.
Bind Scope prog_scope with M.
Notation "x ← y ; z" := (bind y (λ x, z)) : prog_scope.
Notation "y ;; z" := (bind y (λ _, z)) : prog_scope.
#[local] Open Scope prog_scope.

(** [for x in l: body(x)] *)
Fixpoint for_each {A} (l : list A) (body : A → M unit) : M unit :=
  match l with
  | [] => ret tt
  | x :: l' => body x;; for_each l' body
  end.

(** [print(s)] and [print(s, file=sys.stderr)] *)
Definition print (s : string) : M unit :=
  λ w, Ok tt (World (fs w) (stdout w ++ [s]) (stderr w)).

Definition print_stderr (s : string) : M unit :=
  λ w, Ok tt (World (fs w) (stdout w) (stderr w ++ [s])).

(** A call that changes the file system or raises and leaves it. *)
Definition syscall (r : node → exn + node) : M unit :=
  λ w, match r (fs w) with
       | inl e => Raise e w
       | inr n => Ok tt (World n (stdout w) (stderr w))
       end.

(** [Path.exists()]: true for whatever [os.stat] finds; the errors of a
    missing entry or of a file on the way are swallowed. *)
Definition Path_exists (p : path) : M bool :=
  λ w, Ok (is_some (lookup_path p (fs w))) w.

(** [Path.is_dir()] *)
Definition Path_is_dir (p : path) : M bool :=
  λ w, Ok (is_dir_node (lookup_path p (fs w))) w.

(** [Path.mkdir(parents, exist_ok)] as pathlib writes it: try [os.mkdir];
    on [FileNotFoundError] make the parent with [parents=True,
    exist_ok=True] and try once more without [parents]; on another [OSError]
    give in unless [exist_ok] holds and a directory is there.  The recursion
    goes up the parents, so the length of the path is fuel enough. *)
Fixpoint Path_mkdir_fuel (k : nat) (parents exist_ok : bool) (p : path)
    (n : node) : exn + node :=
  match os_op mkdir_entry p n with
  | inr n' => inr n'
  | inl FileNotFoundError =>
      if negb parents || bool_decide (parent p = p) then inl FileNotFoundError
      else
        match k with
        | 0 => inl FileNotFoundError
        | S k' =>
            match Path_mkdir_fuel k' true true (parent p) n with
            | inl e => inl e
            | inr n1 => Path_mkdir_fuel k' false exist_ok p n1
            end
        end
  | inl e =>
      if negb exist_ok || negb (is_dir_node (lookup_path p n)) then inl e
      else inr n
  end.

Definition Path_mkdir (parents exist_ok : bool) (p : path) : M unit :=
  syscall (Path_mkdir_fuel (length p) parents exist_ok p).

(** [Path.unlink()] *)
Definition Path_unlink (p : path) : M unit := syscall (os_op unlink_entry p).

(** [Path.touch()] *)
Definition Path_touch (p : path) : M unit := syscall (os_op touch_entry p).

(** [shutil.rmtree(p)] *)
Definition shutil_rmtree (p : path) : M unit := syscall (os_op rmtree_entry p).

(** [Path.iterdir()]: the entries of the directory, listed when the loop
    starts. *)
Definition Path_iterdir (p : path) : M (list path) :=
  λ w, match lookup_path p (fs w) with
       | Some (Dir m) => Ok ((λ x, p </> x) <$> (map_to_list m).*1) w
       | Some (File _) => Raise NotADirectoryError w
       | None => Raise FileNotFoundError w
       end.

(** [open(p, 'rb')] and reading all of it. *)
Definition read_file (p : path) : M string :=
  λ w, match lookup_path p (fs w) with
       | Some (File d) => Ok d w
       | Some (Dir _) => Raise IsADirectoryError w
       | None => Raise FileNotFoundError w
       end.

(** [shutil.copy(src, dst)]: a directory at [dst] receives the file under
    the name it has at [src]; copying a file onto itself is refused; the
    source is opened before the destination. *)
Definition shutil_copy (src dst : path) : M unit :=
  d ← Path_is_dir dst;
  let dst' := if d : bool then dst </> name src else dst in
  e ← Path_exists src;
  if e && bool_decide (src = dst') then raise SameFileError
  else
    data ← read_file src;
    syscall (os_op (write_entry data) dst').

(** [shutil.copytree(src, dst)]: the entries of [src] are listed, [dst] is
    made with [os.makedirs] (it must not exist, missing directories above it
    are created) and filled with a copy of every entry.  The tree below [src]
    is taken as it is when the call starts. *)
Definition shutil_copytree (src dst : path) : M unit :=
  λ w, match lookup_path src (fs w) with
       | None => Raise FileNotFoundError w
       | Some (File _) => Raise NotADirectoryError w
       | Some (Dir m) =>
           if is_some (lookup_path dst (fs w)) then Raise FileExistsError w
           else
             (syscall (makedirs dst ∘ Some);;
              syscall (os_op (put_entry (copy_node (Dir m))) dst)) w
       end.

(** ** The script *)

Section Script.

(** Where the repository is checked out. *)
Variable repo_root : path.

Definition __file__ : path :=
  repo_root </> "sdks" </> "python" </> "bundle_server.py".

Definition script_dir : path := parent __file__.
Definition core_dir : path := parent (parent script_dir) </> "core".
Definition target_dir : path := script_dir </> "pmxt" </> "_server".
Definition server_dist : path := core_dir </> "dist" </> "server".
Definition bundled_server : path := server_dist </> "bundled.js".
Definition bin_dir : path := core_dir </> "bin".
Definition server_target : path := target_dir </> "server".

(** The body of the clean-up loop. *)
Definition sweep_item (item : path) : M unit :=
  if bool_decide (name item ≠ "bundled.js")
     && bool_decide (name item ≠ "__pycache__")
  then
    d ← Path_is_dir item;
    if d : bool then shutil_rmtree item else Path_unlink item
  else ret tt.

Definition bundle_server : M bool :=
  e ← Path_exists core_dir;
  if negb e then
    print_stderr ("Error: core directory not found at " +:+ str core_dir);;
    print_stderr "This script must be run from the monorepo structure";;
    ret false
  else
  e ← Path_exists bundled_server;
  if negb e then
    print_stderr ("Error: Bundled server not found at "
                  +:+ str bundled_server);;
    print_stderr
      "Please run 'npm run build && npm run bundle:server' in core/";;
    ret false
  else
  e ← Path_exists bin_dir;
  if negb e then
    print_stderr ("Error: bin directory not found at " +:+ str bin_dir);;
    ret false
  else
  Path_mkdir true true target_dir;;
  print ("Copying bundled server from " +:+ str bundled_server +:+ "...");;
  Path_mkdir false true server_target;;
  shutil_copy bundled_server (server_target </> "bundled.js");;
  print ("Copying bin from " +:+ str bin_dir +:+ " to "
         +:+ str (target_dir </> "bin") +:+ "...");;
  e ← Path_exists (target_dir </> "bin");
  (if e : bool then shutil_rmtree (target_dir </> "bin") else ret tt);;
  shutil_copytree bin_dir (target_dir </> "bin");;
  items ← Path_iterdir server_target;
  for_each items sweep_item;;
  Path_touch (target_dir </> "__init__.py");;
  ret true.

(** [if __name__ == '__main__']: the exit status of the process.  An
    exception nobody catches ends the interpreter with status 1. *)
Definition main (w : world) : Z * world :=
  match bundle_server w with
  | Ok success w' => (if success then 0%Z else 1%Z, w')
  | Raise _ w' => (1%Z, w')
  end.

End Script.

(** ** What a run leaves behind, in the words of the specification *)

(** The names the clean-up loop leaves alone. *)
Definition kept (x : string) : Prop := x = "bundled.js" ∨ x = "__pycache__".

#[global] Instance kept_dec x : Decision (kept x).
Proof. unfold kept. apply _. Defined.

(** The server directory after the clean-up: the entries with a name that is
    kept. *)
Definition swept (s : gmap string node) : gmap string node :=
  filter (λ kv, kept kv.1) s.

(** The server directory [s] after the artifact is copied in: a directory
    named [bundled.js] receives the file, anything else is replaced by it.
    [None] when the copy raises. *)
Definition copy_into (data : string) (s : gmap string node)
    : option (gmap string node) :=
  match s !! "bundled.js" with
  | Some (Dir d) =>
      match d !! "bundled.js" with
      | Some (Dir _) => None
      | _ => Some (<["bundled.js" := Dir (<["bundled.js" := File data]> d)]> s)
      end
  | _ => Some (<["bundled.js" := File data]> s)
  end.

(** The target directory [t] after the copies, the clean-up and the marker,
    when its server directory holds [s] at the time of the copy.  [None] when
    some call raises. *)
Definition fill_target (artifact bin : option node)
    (s t : gmap string node) : option (gmap string node) :=
  match artifact with
  | Some (File data) =>
      match copy_into data s with
      | None => None
      | Some s' =>
          match t !! "bin" with
          | Some (File _) => None
          | _ =>
              match bin with
              | Some (Dir b) =>
                  Some (<["__init__.py" := default (File "")
                                             (t !! "__init__.py")]>
                          (<["server" := Dir (swept s')]>
                             (<["bin" := Dir b]> t)))
              | _ => None
              end
          end
      end
  | _ => None
  end.

(** The target directory [t] after a run that gets through, from what is at
    the artifact path and at the bin path.  [None] when some call raises. *)
Definition bundle_into (artifact bin : option node) (t : gmap string node)
    : option (gmap string node) :=
  match t !! "server" with
  | Some (File _) => None
  | server =>
      fill_target artifact bin
        (match server with Some (Dir s) => s | _ => ∅ end) t
  end.

(** The two progress lines of a run that reaches the copy of bin. *)
Definition progress (repo_root : path) : list string :=
  ["Copying bundled server from " +:+ str (bundled_server repo_root) +:+ "...";
   "Copying bin from " +:+ str (bin_dir repo_root) +:+ " to "
     +:+ str (target_dir repo_root </> "bin") +:+ "..."].

(** The diagnostics of the three checks. *)
Definition core_missing (repo_root : path) : list string :=
  ["Error: core directory not found at " +:+ str (core_dir repo_root);
   "This script must be run from the monorepo structure"].

Definition artifact_missing (repo_root : path) : list string :=
  ["Error: Bundled server not found at " +:+ str (bundled_server repo_root);
   "Please run 'npm run build && npm run bundle:server' in core/"].

Definition bin_missing (repo_root : path) : list string :=
  ["Error: bin directory not found at " +:+ str (bin_dir repo_root)].

(** The clean-up loop on the names [l], seen from the server directory. *)
Definition sweep_names (l : list string) (s : gmap string node)
    : gmap string node :=
  foldl (λ s x, if decide (kept x) then s else delete x s) s l.

(** The target directory of a first run. *)
Definition fresh_target (data : string) (b : gmap string node)
    : gmap string node :=
  {[ "server" := Dir {[ "bundled.js" := File data ]};
     "bin" := Dir b;
     "__init__.py" := File "" ]}.

(** ** What a statement leaves alone *)

(** The world a statement ends in, whether it returns or raises. *)
Definition outcome_world {A} (r : result A) : world :=
  match r with Ok _ w | Raise _ w => w end.

(** [r] is at or below [T]: what diverges from [T] diverges from [r]. *)
Definition inside (T r : path) : Prop :=
  ∀ p, diverge T p = true → diverge r p = true.

(** A statement that leaves alone every entry whose path diverges from
    [T], however it ends. *)
Definition keeps_outside {A} (T : path) (c : M A) : Prop :=
  ∀ w p, diverge T p = true →
         lookup_path p (fs (outcome_world (c w))) = lookup_path p (fs w).

(** A statement that prints, however it ends, some first lines of [l] on
    stdout and nothing on stderr. *)
Definition prints {A} (l : list string) (c : M A) : Prop :=
  ∀ w, stderr (outcome_world (c w)) = stderr w ∧
       ∃ l', l' `prefix_of` l ∧ stdout (outcome_world (c w)) = stdout w ++ l'.

(** ** Sample file systems *)

Definition sample_root : path := ["repo"].

Definition sample_bin : gmap string node :=
  {[ "pmxt-server" := File "#!/usr/bin/env node";
     "lib" := Dir {[ "ensure.js" := File "ensure();" ]} ]}.

Definition sample_dist : node :=
  Dir {[ "server" := Dir {[ "bundled.js" := File "serve();" ]} ]}.

Definition sample_core : node :=
  Dir {[ "dist" := sample_dist; "bin" := Dir sample_bin ]}.

(** A checkout at [/repo] with the given [core] and the given entries of
    [sdks/python]. *)
Definition checkout (core : option node) (python : gmap string node) : node :=
  Dir {[ "repo" :=
           Dir (partial_alter (λ _, core) "core"
                  {[ "sdks" := Dir {[ "python" := Dir python ]} ]}) ]}.

Definition script_only : gmap string node :=
  {[ "bundle_server.py" := File "#!/usr/bin/env python3" ]}.

Definition with_target (t : gmap string node) : gmap string node :=
  <["pmxt" := Dir {[ "__init__.py" := File "from .client import *";
                     "_server" := Dir t ]}]> script_only.

Definition fs_first : node := checkout (Some sample_core) script_only.

Definition fs_first_after : node :=
  checkout (Some sample_core)
    (<["pmxt" := Dir {[ "_server" :=
                          Dir (fresh_target "serve();" sample_bin) ]}]>
       script_only).

Definition stale_target : gmap string node :=
  {[ "__init__.py" := File "# edited by hand";
     "server" := Dir {[ "bundled.js" := File "old();";
                        "bundled.js.map" := File "{}";
                        "node_modules" := Dir {[ "left.js" := File "" ]};
                        "__pycache__" := File "not a cache" ]};
     "bin" := Dir {[ "pmxt-server" := File "old";
                     "removed-upstream" := File "gone" ]} ]}.

Definition stale_target_after : gmap string node :=
  {[ "__init__.py" := File "# edited by hand";
     "server" := Dir {[ "bundled.js" := File "serve();";
                        "__pycache__" := File "not a cache" ]};
     "bin" := Dir sample_bin ]}.

Definition fs_stale : node :=
  checkout (Some sample_core) (with_target stale_target).
Definition fs_stale_after : node :=
  checkout (Some sample_core) (with_target stale_target_after).

Definition fs_pmxt_file : node :=
  checkout (Some sample_core) (<["pmxt" := File ""]> script_only).

Definition fs_no_core : node := checkout None script_only.

Definition fs_no_artifact : node :=
  checkout (Some (Dir {[ "bin" := Dir sample_bin ]})) script_only.

Definition fs_no_bin : node :=
  checkout (Some (Dir {[ "dist" := sample_dist ]})) script_only.

Definition core_artifact_dir : node :=
  Dir {[ "dist" := Dir {[ "server" := Dir {[ "bundled.js" := Dir ∅ ]} ]};
         "bin" := Dir sample_bin ]}.

Definition fs_artifact_dir : node :=
  checkout (Some core_artifact_dir) script_only.

Definition fs_artifact_dir_after : node :=
  checkout (Some core_artifact_dir)
    (<["pmxt" := Dir {[ "_server" := Dir {[ "server" := Dir ∅ ]} ]}]>
       script_only).

Definition core_bin_file : node :=
  Dir {[ "dist" := sample_dist; "bin" := File "#!/bin/sh" ]}.

Definition fs_bin_file : node := checkout (Some core_bin_file) script_only.

Definition fs_bin_file_after : node :=
  checkout (Some core_bin_file)
    (<["pmxt" := Dir {[ "_server" :=
         Dir {[ "server" := Dir {[ "bundled.js" := File "serve();" ]} ]} ]}]>
       script_only).

(** The stale checkout with one more entry in the target directory, which
    no statement of the script names. *)
Definition fs_notes : node :=
  checkout (Some sample_core)
    (with_target (<["notes.txt" := File "keep me"]> stale_target)).
Definition fs_notes_after : node :=
  checkout (Some sample_core)
    (with_target (<["notes.txt" := File "keep me"]> stale_target_after)).

(** A checkout whose server directory holds a directory named
    [bundled.js], and what a run makes of it. *)
Definition fs_bundled_dir : node :=
  checkout (Some sample_core)
    (with_target
       {[ "server" :=
            Dir {[ "bundled.js" := Dir {[ "old.js" := File "old();" ]} ]} ]}).

Definition fs_bundled_dir_after : node :=
  checkout (Some sample_core)
    (with_target
       {[ "server" :=
            Dir {[ "bundled.js" :=
                     Dir {[ "old.js" := File "old();";
                            "bundled.js" := File "serve();" ]} ]};
          "bin" := Dir sample_bin;
          "__init__.py" := File "" ]}).

(** A run starts with nothing printed. *)
Definition quiet (n : node) : world := World n [] [].

(** The world after a run on [quiet] that reaches the copy of bin. *)
Definition copied (n : node) : world := World n (progress sample_root) [].

(** ** Lemmas on paths and trees *)

Lemma lookup_path_app p q n :
  lookup_path (p ++ q) n = lookup_path p n ≫= lookup_path q.
Proof.
  revert n. induction p as [|x p IH]; intros n; simpl; [done|].
  destruct n as [d|m]; [done|].
  destruct (m !! x) as [c|]; simpl; [apply IH | done].
Qed.

Lemma lookup_path_snoc p x n m :
  lookup_path p n = Some (Dir m) → lookup_path (p </> x) n = m !! x.
Proof.
  intros H. rewrite lookup_path_app, H. simpl. by destruct (m !! x).
Qed.

Lemma diverge_app r p q : diverge (r ++ p) (r ++ q) = diverge p q.
Proof. induction r as [|a r IH]; simpl; [done|]. by rewrite decide_True. Qed.

Lemma diverge_sym p q : diverge p q = diverge q p.
Proof.
  revert q. induction p as [|a p IH]; intros [|b q]; simpl; try done.
  destruct (decide (a = b)) as [->|Hne].
  - rewrite decide_True by done. apply IH.
  - by rewrite decide_False by congruence.
Qed.

Lemma diverge_app_r p q r : diverge p q = true → diverge p (q ++ r) = true.
Proof.
  revert q. induction p as [|a p IH]; intros [|b q]; simpl; try done.
  destruct (decide (a = b)); [apply IH | done].
Qed.

Lemma diverge_ne p q : diverge p q = true → p ≠ q.
Proof.
  intros H ->. induction q as [|a q IH]; simpl in H; [done|].
  rewrite decide_True in H by done. auto.
Qed.

(** Grafting *)

Lemma lookup_path_graft p q c n :
  is_Some (lookup_path p n) →
  lookup_path (p ++ q) (graft p c n) = lookup_path q c.
Proof.
  revert n. induction p as [|x p IH]; intros n [d Hd]; simpl in *; [done|].
  destruct n as [?|m]; [done|].
  destruct (m !! x) as [e|] eqn:He; simpl in *; [|done].
  rewrite lookup_insert_eq. simpl. apply IH. eauto.
Qed.

Lemma lookup_path_graft_same p c n :
  is_Some (lookup_path p n) → lookup_path p (graft p c n) = Some c.
Proof.
  intros H. by rewrite <-(app_nil_r p) at 1; rewrite lookup_path_graft.
Qed.

Lemma lookup_path_graft_diverge p q c n :
  diverge p q = true → lookup_path q (graft p c n) = lookup_path q n.
Proof.
  revert q n. induction p as [|x p IH]; intros [|y q] n H; simpl in *;
    try done.
  destruct n as [?|m]; [done|].
  destruct (m !! x) as [e|] eqn:He; [|done].
  destruct (decide (x = y)) as [->|Hne].
  - rewrite lookup_insert_eq, He. simpl. by apply IH.
  - by rewrite lookup_insert_ne.
Qed.

Lemma graft_id p c n : lookup_path p n = Some c → graft p c n = n.
Proof.
  revert n. induction p as [|x p IH]; intros n H; simpl in *; [congruence|].
  destruct n as [?|m]; [done|].
  destruct (m !! x) as [e|] eqn:He; simpl in *; [|done].
  rewrite (IH _ H). by rewrite insert_id.
Qed.

Lemma graft_graft p c c' n : graft p c (graft p c' n) = graft p c n.
Proof.
  revert n. induction p as [|x p IH]; intros n; simpl; [done|].
  destruct n as [?|m]; [done|].
  destruct (m !! x) as [e|] eqn:He; simpl; [|by rewrite He].
  by rewrite lookup_insert_eq, insert_insert_eq, IH.
Qed.

Lemma is_Some_lookup_path_graft p c n :
  is_Some (lookup_path p n) → is_Some (lookup_path p (graft p c n)).
Proof. intros H. rewrite lookup_path_graft_same; eauto. Qed.

(** System calls below an entry that exists *)

Lemma at_path_cons_is_Some f x q o v :
  at_path f (x :: q) o = inr v → is_Some v.
Proof.
  simpl. destruct o as [[?|m]|]; try done.
  destruct (at_path f q (m !! x)); [done|]. intros [= <-]. eauto.
Qed.

Lemma os_op_cons f x q n :
  os_op f (x :: q) n =
  match at_path f (x :: q) (Some n) with
  | inl e => inl e
  | inr v => inr (default n v)
  end.
Proof.
  unfold os_op. destruct (at_path f (x :: q) (Some n)) as [e|v] eqn:H; [done|].
  by destruct (at_path_cons_is_Some _ _ _ _ _ H) as [c ->].
Qed.

Lemma os_op_focus f p q n c :
  lookup_path p n = Some c → q ≠ [] →
  os_op f (p ++ q) n =
  match os_op f q c with
  | inl e => inl e
  | inr c' => inr (graft p c' n)
  end.
Proof.
  intros Hp Hq. revert n Hp. induction p as [|x p IH]; intros n Hp; simpl in *.
  - injection Hp as ->. by destruct (os_op f q c).
  - destruct n as [?|m]; [done|].
    destruct (m !! x) as [d|] eqn:Hd; simpl in *; [|done].
    specialize (IH d Hp). destruct (p ++ q) as [|y r] eqn:Hpq.
    { by apply app_eq_nil in Hpq as [_ ?]. }
    rewrite os_op_cons in IH |- *.
    change (at_path f (x :: y :: r) (Some (Dir m)))
      with (match at_path f (y :: r) (m !! x) with
            | inl e => inl e
            | inr v => inr (Some (Dir (partial_alter (λ _, v) x m)))
            end).
    rewrite Hd. destruct (at_path f (y :: r) (Some d)) as [e|v] eqn:Hat.
    + by destruct (os_op f q c).
    + destruct (at_path_cons_is_Some _ _ _ _ _ Hat) as [d' ->]. simpl in *.
      destruct (os_op f q c) as [e|c']; [done|]. by injection IH as ->.
Qed.

Lemma os_op_single f x m :
  os_op f [x] (Dir m) =
  match f (m !! x) with
  | inl e => inl e
  | inr v => inr (Dir (partial_alter (λ _, v) x m))
  end.
Proof. unfold os_op. simpl. by destruct (f (m !! x)). Qed.

(** Making directories *)

Lemma makedirs_None p : ∃ c, makedirs p None = inr c.
Proof.
  induction p as [|x p [c IH]]; simpl; [eauto|]. rewrite IH. eauto.
Qed.

Lemma makedirs_is_dir p o n' :
  makedirs p o = inr n' → ∃ m, lookup_path p n' = Some (Dir m).
Proof.
  revert o n'. induction p as [|x p IH]; intros o n' H.
  - destruct o as [[?|m]|]; simpl in H; simplify_eq; simpl; eauto.
  - destruct o as [[?|m]|]; simpl in H; [done| |].
    + destruct (makedirs p (m !! x)) as [e|c] eqn:Hc; simplify_eq.
      simpl. rewrite lookup_insert_eq. simpl. eauto.
    + destruct (makedirs p None) as [e|c] eqn:Hc; simplify_eq.
      simpl. rewrite lookup_singleton_eq. simpl. eauto.
Qed.

Lemma makedirs_existing p n c :
  lookup_path p n = Some c →
  makedirs p (Some n) =
  match c with Dir _ => inr n | File _ => inl FileExistsError end.
Proof.
  revert n. induction p as [|x p IH]; intros n H; simpl in H.
  - injection H as ->. by destruct c.
  - destruct n as [?|m]; [done|].
    destruct (m !! x) as [d|] eqn:Hd; simpl in H; [|done].
    simpl. rewrite Hd, (IH _ H). destruct c; [done|]. by rewrite insert_id.
Qed.

Lemma makedirs_fresh p o n' :
  o ≫= lookup_path p = None → makedirs p o = inr n' →
  lookup_path p n' = Some (Dir ∅).
Proof.
  revert o n'. induction p as [|x p IH]; intros o n' Ho H.
  - destruct o as [n|]; simpl in *; [done|]. by simplify_eq.
  - destruct o as [[?|m]|]; simpl in H; [done| |].
    + destruct (makedirs p (m !! x)) as [e|c] eqn:Hc; simplify_eq.
      simpl in *. rewrite lookup_insert_eq. simpl. exact (IH _ _ Ho Hc).
    + destruct (makedirs p None) as [e|c] eqn:Hc; simplify_eq.
      simpl. rewrite lookup_singleton_eq. simpl. exact (IH None _ eq_refl Hc).
Qed.

Lemma makedirs_frame p q o n' :
  makedirs p o = inr n' → diverge p q = true →
  lookup_path q n' = o ≫= lookup_path q.
Proof.
  revert q o n'. induction p as [|x p IH]; intros [|y q] o n' H Hd;
    simpl in Hd; try done.
  destruct o as [[?|m]|]; simpl in H; [done| |].
  - destruct (makedirs p (m !! x)) as [e|c] eqn:Hc; simplify_eq. simpl.
    destruct (decide (x = y)) as [->|Hne].
    + rewrite lookup_insert_eq. simpl. by rewrite (IH _ _ _ Hc Hd).
    + by rewrite lookup_insert_ne.
  - destruct (makedirs p None) as [e|c] eqn:Hc; simplify_eq. simpl.
    destruct (decide (x = y)) as [->|Hne].
    + rewrite lookup_singleton_eq. simpl. by rewrite (IH _ _ _ Hc Hd).
    + by rewrite lookup_singleton_ne.
Qed.

Lemma makedirs_focus p q n c :
  lookup_path p n = Some c →
  makedirs (p ++ q) (Some n) =
  match makedirs q (Some c) with
  | inl e => inl e
  | inr c' => inr (graft p c' n)
  end.
Proof.
  revert n. induction p as [|x p IH]; intros n H; simpl in H.
  - injection H as ->. simpl. by destruct (makedirs q (Some c)).
  - destruct n as [?|m]; [done|].
    destruct (m !! x) as [d|] eqn:Hd; simpl in H; [|done].
    simpl. rewrite Hd, (IH _ H). by destruct (makedirs q (Some c)).
Qed.

(** A directory made by [makedirs] holds the place of what was there. *)
Lemma makedirs_graft p n n' :
  makedirs p (Some n) = inr n' →
  ∃ t, lookup_path p n' = Some (Dir t) ∧ n' = graft p (Dir t) n'.
Proof.
  intros H. destruct (makedirs_is_dir _ _ _ H) as [t Ht].
  exists t. split; [done|]. by rewrite graft_id.
Qed.

(** [makedirs] only gives in to a regular file on its way. *)
Lemma makedirs_ok p o :
  Forall (λ q, is_file_node (o ≫= lookup_path q) = false) (parents p) →
  is_file_node (o ≫= lookup_path p) = false →
  ∃ n', makedirs p o = inr n'.
Proof.
  revert o. induction p as [|x p IH]; intros o Hpar Hp.
  - destruct o as [[?|m]|]; simpl in *; [done|eauto..].
  - destruct o as [[?|m]|]; [|simpl|apply makedirs_None].
    { apply Forall_cons in Hpar as [Hroot _]. done. }
    destruct (IH (m !! x)) as [c Hc]; [|done|rewrite Hc; eauto].
    simpl in Hpar. apply Forall_cons in Hpar as [_ Hpar].
    by apply Forall_fmap in Hpar.
Qed.

(** [Path.mkdir] against [makedirs] *)

Lemma at_path_mkdir_ok p o v :
  at_path mkdir_entry p o = inr v →
  ∃ n', v = Some n' ∧ makedirs p o = inr n'.
Proof.
  revert o v. induction p as [|x p IH]; intros o v H; simpl in H.
  - destruct o; simpl in H; simplify_eq. simpl. eauto.
  - destruct o as [[?|m]|]; try done.
    destruct (at_path mkdir_entry p (m !! x)) as [e|v'] eqn:Hat; simplify_eq.
    destruct (IH _ _ Hat) as (c & -> & Hc). simpl. rewrite Hc. eauto.
Qed.

Lemma at_path_mkdir_exists p n :
  at_path mkdir_entry p (Some n) = inl FileExistsError →
  is_Some (lookup_path p n).
Proof.
  revert n. induction p as [|x p IH]; intros n H; simpl in *; [eauto|].
  destruct n as [?|m]; [done|].
  destruct (at_path mkdir_entry p (m !! x)) as [e|v] eqn:Hat; simplify_eq.
  destruct (m !! x) as [d|] eqn:Hd; simpl.
  - by apply IH.
  - destruct p; simpl in Hat; done.
Qed.

Lemma at_path_mkdir_notdir p n :
  at_path mkdir_entry p (Some n) = inl NotADirectoryError →
  lookup_path p n = None ∧ makedirs p (Some n) = inl NotADirectoryError.
Proof.
  revert n. induction p as [|x p IH]; intros n H; simpl in *; [done|].
  destruct n as [?|m]; [done|].
  destruct (at_path mkdir_entry p (m !! x)) as [e|v] eqn:Hat; simplify_eq.
  destruct (m !! x) as [d|] eqn:Hd; simpl.
  - destruct (IH _ Hat) as [-> ->]. done.
  - destruct p; simpl in Hat; done.
Qed.

Lemma at_path_mkdir_errors p o e :
  at_path mkdir_entry p o = inl e →
  e = FileNotFoundError ∨ e = FileExistsError ∨ e = NotADirectoryError.
Proof.
  revert o. induction p as [|x p IH]; intros o H; simpl in H.
  - destruct o; simpl in H; simplify_eq. auto.
  - destruct o as [[?|m]|]; simplify_eq; auto.
    destruct (at_path mkdir_entry p (m !! x)) as [e'|v] eqn:Hat; simplify_eq.
    eauto.
Qed.

(** When [os.mkdir] misses a directory on the way, making the parent first
    and trying again does what [makedirs] does. *)
Lemma at_path_mkdir_missing p o :
  at_path mkdir_entry p o = inl FileNotFoundError →
  p ≠ [] ∧
  match makedirs (parent p) o with
  | inl e => makedirs p o = inl e
  | inr n1 =>
      ∃ n2, at_path mkdir_entry p (Some n1) = inr (Some n2)
            ∧ makedirs p o = inr n2
  end.
Proof.
  unfold parent. revert o. induction p as [|x p IH]; intros o H.
  { destruct o; simpl in H; done. }
  split; [done|].
  destruct p as [|y q].
  - (* the parent of [x] is where the walk stands *)
    destruct o as [[?|m]|]; simpl in H |- *; try done.
    + destruct (m !! x); simpl in H; done.
    + eexists. split; [|done]. rewrite lookup_empty. simpl.
      do 3 f_equal; try exact (insert_empty x (Dir ∅)).
  - destruct o as [[?|m]|]; try done.
    + simpl in H.
      destruct (match m !! x with
                | Some (File _) => _ | Some (Dir _) => _ | None => _
                end) as [e|v] eqn:Hat in H; simplify_eq.
      destruct (IH (m !! x) Hat) as [_ IH'].
      change (removelast (x :: y :: q)) with (x :: removelast (y :: q)).
      change (makedirs (x :: removelast (y :: q)) (Some (Dir m)))
        with (match makedirs (removelast (y :: q)) (m !! x) with
              | inl e => inl e
              | inr c => inr (Dir (<[x:=c]> m))
              end).
      change (makedirs (x :: y :: q) (Some (Dir m)))
        with (match makedirs (y :: q) (m !! x) with
              | inl e => inl e
              | inr c => inr (Dir (<[x:=c]> m))
              end).
      destruct (makedirs (removelast (y :: q)) (m !! x)) as [e|c].
      * by rewrite IH'.
      * destruct IH' as (c2 & Hc2 & ->). eexists. split; [|done].
        change (at_path mkdir_entry (x :: y :: q) (Some (Dir (<[x:=c]> m))))
          with (match at_path mkdir_entry (y :: q) (<[x:=c]> m !! x) with
                | inl e => inl e
                | inr v => inr (Some (Dir (partial_alter (λ _, v) x
                                             (<[x:=c]> m))))
                end).
        rewrite lookup_insert_eq, Hc2. do 3 f_equal;
          try exact (insert_insert_eq m x c2 c).
    + destruct (IH None eq_refl) as [_ IH'].
      change (removelast (x :: y :: q)) with (x :: removelast (y :: q)).
      change (makedirs (x :: removelast (y :: q)) None)
        with (match makedirs (removelast (y :: q)) None with
              | inl e => inl e
              | inr c => inr (Dir {[x:=c]})
              end).
      change (makedirs (x :: y :: q) None)
        with (match makedirs (y :: q) None with
              | inl e => inl e
              | inr c => inr (Dir {[x:=c]})
              end).
      destruct (makedirs (removelast (y :: q)) None) as [e|c].
      * by rewrite IH'.
      * destruct IH' as (c2 & Hc2 & ->). eexists. split; [|done].
        change (at_path mkdir_entry (x :: y :: q) (Some (Dir {[x:=c]})))
          with (match at_path mkdir_entry (y :: q)
                        (({[x:=c]} : gmap string node) !! x) with
                | inl e => inl e
                | inr v => inr (Some (Dir (partial_alter (λ _, v) x {[x:=c]})))
                end).
        rewrite lookup_singleton_eq, Hc2. do 3 f_equal;
          try exact (insert_singleton_eq x c2 c).
Qed.

Lemma Path_mkdir_fuel_unfold k parents exist_ok p n :
  Path_mkdir_fuel k parents exist_ok p n =
  match os_op mkdir_entry p n with
  | inr n' => inr n'
  | inl FileNotFoundError =>
      if negb parents || bool_decide (parent p = p) then inl FileNotFoundError
      else
        match k with
        | 0 => inl FileNotFoundError
        | S k' =>
            match Path_mkdir_fuel k' true true (parent p) n with
            | inl e => inl e
            | inr n1 => Path_mkdir_fuel k' false exist_ok p n1
            end
        end
  | inl e =>
      if negb exist_ok || negb (is_dir_node (lookup_path p n)) then inl e
      else inr n
  end.
Proof. by destruct k. Qed.

Lemma os_op_mkdir_cases p n :
  match os_op mkdir_entry p n with
  | inr n' => makedirs p (Some n) = inr n'
  | inl FileNotFoundError =>
      at_path mkdir_entry p (Some n) = inl FileNotFoundError
  | inl e =>
      makedirs p (Some n) =
      (if is_dir_node (lookup_path p n) then inr n else inl e)
  end.
Proof.
  unfold os_op.
  destruct (at_path mkdir_entry p (Some n)) as [e|v] eqn:Hat.
  - destruct (at_path_mkdir_errors _ _ _ Hat) as [->| [->| ->]]; [done| |].
    + destruct (at_path_mkdir_exists _ _ Hat) as [c Hc].
      rewrite (makedirs_existing _ _ _ Hc), Hc. by destruct c.
    + by destruct (at_path_mkdir_notdir _ _ Hat) as [-> ->].
  - by destruct (at_path_mkdir_ok _ _ _ Hat) as (n' & -> & ?).
Qed.

(** [mkdir(exist_ok=True)] without [parents]. *)
Lemma Path_mkdir_fuel_single k p n :
  Path_mkdir_fuel k false true p n =
  match os_op mkdir_entry p n with
  | inr n' => inr n'
  | inl FileNotFoundError => inl FileNotFoundError
  | inl e => if is_dir_node (lookup_path p n) then inr n else inl e
  end.
Proof.
  rewrite Path_mkdir_fuel_unfold.
  destruct (os_op mkdir_entry p n) as [[]|]; simpl; try done;
    by destruct (is_dir_node _).
Qed.

(** [mkdir(parents=True, exist_ok=True)] is [makedirs]. *)
Lemma Path_mkdir_fuel_parents k (p : path) n :
  (length p ≤ k)%nat → Path_mkdir_fuel k true true p n = makedirs p (Some n).
Proof.
  revert p n. induction k as [|k IH]; intros p n Hk;
    rewrite Path_mkdir_fuel_unfold;
    pose proof (os_op_mkdir_cases p n) as Hc;
    destruct (os_op mkdir_entry p n) as [[]|n'] eqn:Hos; simpl; try done;
    try (rewrite Hc; by destruct (is_dir_node _)).
  - destruct (at_path_mkdir_missing _ _ Hc) as [Hp _].
    destruct p; simpl in Hk; [done | lia].
  - destruct (at_path_mkdir_missing _ _ Hc) as [Hp Hm].
    rewrite bool_decide_false.
    2:{ unfold parent. intros Heq. apply (f_equal length) in Heq.
        destruct p as [|x p] using rev_ind; [done|].
        rewrite removelast_last, length_app in Heq. simpl in Heq. lia. }
    rewrite IH.
    2:{ unfold parent. destruct p as [|x p _] using rev_ind; [done|].
        rewrite removelast_last. rewrite length_app in Hk. simpl in Hk. lia. }
    destruct (makedirs (parent p) (Some n)) as [e|n1]; [done|].
    destruct Hm as (n2 & Hn2 & ->).
    rewrite Path_mkdir_fuel_single. unfold os_op. by rewrite Hn2.
Qed.

(** Copies *)

Lemma node_size_lookup (m : gmap string node) x c :
  m !! x = Some c → node_size c < node_size (Dir m).
Proof.
  intros H. simpl.
  rewrite (map_fold_delete_L _ _ x (node_size c)).
  - lia.
  - intros. lia.
  - by rewrite lookup_fmap, H.
Qed.

Lemma node_ind' (P : node → Prop) :
  (∀ d, P (File d)) →
  (∀ m : gmap string node, (∀ x c, m !! x = Some c → P c) → P (Dir m)) →
  ∀ n, P n.
Proof.
  intros Hf Hd n. remember (node_size n) as k eqn:Hk. revert n Hk.
  induction (lt_wf k) as [k _ IH]. intros n ->.
  destruct n as [d|m]; [apply Hf|].
  apply Hd. intros x c Hc.
  apply (IH (node_size c)); [by apply (node_size_lookup m x) | done].
Qed.

Lemma copy_node_id n : copy_node n = n.
Proof.
  induction n as [d|m IH] using node_ind'; simpl; [done|].
  f_equal. apply map_eq. intros x. rewrite lookup_fmap.
  destruct (m !! x) as [c|] eqn:Hc; simpl; [|done].
  f_equal. by eapply IH.
Qed.

(** ** The calls of the script below the target directory *)

Lemma bind_eq {A B} (c : M A) (k : A → M B) w :
  bind c k w = match c w with Ok a w' => k a w' | Raise e w' => Raise e w' end.
Proof. done. Qed.

Lemma name_snoc (p : path) x : name (p </> x) = x.
Proof. unfold name. by rewrite last_snoc. Qed.

Lemma sweep_names_lookup l (s : gmap string node) k :
  sweep_names l s !! k
  = if decide (k ∈ l ∧ ¬ kept k) then None else s !! k.
Proof.
  unfold sweep_names. revert s. induction l as [|x l IH]; intros s.
  - cbn [foldl]. destruct (decide _) as [[H _]|_]; [|done].
    by apply elem_of_nil in H.
  - cbn [foldl]. rewrite IH.
    destruct (decide (k ∈ l ∧ ¬ kept k)) as [[Hl Hk]|Hn];
      destruct (decide (k ∈ x :: l ∧ ¬ kept k)) as [[Hl' Hk']|Hn']; try done.
    + exfalso. apply Hn'. split; [by right|done].
    + apply elem_of_cons in Hl' as [->|Hl']; [|tauto].
      rewrite decide_False by done. apply lookup_delete_eq.
    + destruct (decide (kept x)); [done|].
      apply lookup_delete_ne. intros ->. apply Hn'. split; [by left|done].
Qed.

Lemma sweep_names_all (s : gmap string node) :
  sweep_names (map_to_list s).*1 s = swept s.
Proof.
  apply map_eq. intros k. rewrite sweep_names_lookup. unfold swept.
  rewrite map_lookup_filter.
  destruct (s !! k) as [c|] eqn:Hk; simpl.
  - destruct (decide (kept k)) as [Hkept|Hkept].
    + rewrite decide_False by tauto. by rewrite option_guard_True.
    + rewrite decide_True; [by rewrite option_guard_False|].
      split; [|done]. apply list_elem_of_fmap. exists (k, c). split; [done|].
      by apply elem_of_map_to_list.
  - by destruct (decide _).
Qed.

Lemma os_op_double f x y (t s : gmap string node) :
  t !! x = Some (Dir s) →
  os_op f [x; y] (Dir t) =
  match f (s !! y) with
  | inl e => inl e
  | inr v => inr (Dir (<[x:=Dir (partial_alter (λ _, v) y s)]> t))
  end.
Proof.
  intros Hx. unfold os_op. simpl. rewrite Hx. by destruct (f (s !! y)).
Qed.

Lemma lookup_path_double x y (t s : gmap string node) :
  t !! x = Some (Dir s) → lookup_path [x; y] (Dir t) = s !! y.
Proof. intros Hx. simpl. rewrite Hx. simpl. by destruct (s !! y). Qed.

(** Every call the script makes after [target_dir.mkdir] works below the
    target directory [T]; its effect is stated on the entries [t] of that
    directory, grafted into the file system [n] around it. *)
Section Focus.
Context (T : path) (n : node) (HT : is_Some (lookup_path T n)).

Lemma focus_lookup q t :
  lookup_path (T ++ q) (graft T (Dir t) n) = lookup_path q (Dir t).
Proof. by apply lookup_path_graft. Qed.

Lemma focus_exists q t o e :
  Path_exists (T ++ q) (World (graft T (Dir t) n) o e)
  = Ok (is_some (lookup_path q (Dir t))) (World (graft T (Dir t) n) o e).
Proof. unfold Path_exists. simpl. by rewrite focus_lookup. Qed.

Lemma focus_is_dir q t o e :
  Path_is_dir (T ++ q) (World (graft T (Dir t) n) o e)
  = Ok (is_dir_node (lookup_path q (Dir t))) (World (graft T (Dir t) n) o e).
Proof. unfold Path_is_dir. simpl. by rewrite focus_lookup. Qed.

Lemma focus_syscall f q t o e :
  q ≠ [] →
  syscall (os_op f (T ++ q)) (World (graft T (Dir t) n) o e)
  = match os_op f q (Dir t) with
    | inl x => Raise x (World (graft T (Dir t) n) o e)
    | inr c => Ok tt (World (graft T c n) o e)
    end.
Proof.
  intros Hq. unfold syscall. simpl.
  rewrite (os_op_focus f T q _ (Dir t)); [|by apply lookup_path_graft_same|done].
  destruct (os_op f q (Dir t)); [done|]. by rewrite graft_graft.
Qed.

Lemma focus_outside p t :
  diverge T p = true → lookup_path p (graft T (Dir t) n) = lookup_path p n.
Proof. apply lookup_path_graft_diverge. Qed.

Lemma focus_mkdir x t o e :
  Path_mkdir false true (T </> x) (World (graft T (Dir t) n) o e)
  = match t !! x with
    | None => Ok tt (World (graft T (Dir (<[x:=Dir ∅]> t)) n) o e)
    | Some (Dir _) => Ok tt (World (graft T (Dir t) n) o e)
    | Some (File _) => Raise FileExistsError (World (graft T (Dir t) n) o e)
    end.
Proof.
  unfold Path_mkdir, syscall. cbn [fs]. rewrite Path_mkdir_fuel_single.
  rewrite (os_op_focus _ T [x] _ (Dir t)); [|by apply lookup_path_graft_same|done].
  rewrite os_op_single, focus_lookup. simpl.
  destruct (t !! x) as [[?|s]|]; simpl; try done.
  by rewrite graft_graft.
Qed.

Lemma focus_ne q p : diverge T p = true → p ≠ T ++ q.
Proof.
  intros H. apply diverge_ne. rewrite diverge_sym in H.
  by apply diverge_app_r.
Qed.

Lemma focus_copy src t s o e :
  diverge T src = true → name src = "bundled.js" →
  t !! "server" = Some (Dir s) →
  shutil_copy src (T ++ ["server"; "bundled.js"])
    (World (graft T (Dir t) n) o e)
  = match lookup_path src n with
    | Some (File data) =>
        match copy_into data s with
        | Some s' => Ok tt (World (graft T (Dir (<["server":=Dir s']> t)) n) o e)
        | None => Raise IsADirectoryError (World (graft T (Dir t) n) o e)
        end
    | Some (Dir _) => Raise IsADirectoryError (World (graft T (Dir t) n) o e)
    | None => Raise FileNotFoundError (World (graft T (Dir t) n) o e)
    end.
Proof.
  intros Hd Hname Hs. unfold shutil_copy.
  rewrite bind_eq, focus_is_dir. cbv beta iota.
  rewrite bind_eq. unfold Path_exists at 1. cbv beta iota. cbn [fs].
  rewrite (focus_outside _ _ Hd), Hname.
  assert (lookup_path ["server"; "bundled.js"] (Dir t) = s !! "bundled.js")
    as ->.
  { simpl. rewrite Hs. simpl. by destruct (s !! "bundled.js"). }
  unfold copy_into.
  destruct (s !! "bundled.js") as [[d0|d]|] eqn:Hb; cbn [is_dir_node];
    rewrite <-?app_assoc; cbn [app];
    (rewrite bool_decide_false by (by apply focus_ne));
    rewrite andb_false_r, bind_eq; unfold read_file at 1; cbn [fs];
    rewrite (focus_outside _ _ Hd);
    destruct (lookup_path src n) as [[data|?]|]; try done;
    (rewrite focus_syscall by done); unfold os_op; simpl;
    rewrite Hs; simpl; rewrite ?Hb; simpl; try done.
  destruct (d !! "bundled.js") as [[?|?]|]; simpl; done.
Qed.

Lemma focus_touch x t o e :
  Path_touch (T </> x) (World (graft T (Dir t) n) o e)
  = Ok tt (World (graft T (Dir (<[x:=default (File "") (t !! x)]> t)) n) o e).
Proof.
  unfold Path_touch. rewrite focus_syscall by done. rewrite os_op_single.
  by destruct (t !! x).
Qed.

Lemma focus_makedirs_fresh x t o e :
  t !! x = None →
  syscall (makedirs (T </> x) ∘ Some) (World (graft T (Dir t) n) o e)
  = Ok tt (World (graft T (Dir (<[x:=Dir ∅]> t)) n) o e).
Proof.
  intros Hx. unfold syscall. cbn [fs compose].
  rewrite (makedirs_focus T [x] _ (Dir t)) by by apply lookup_path_graft_same.
  simpl. rewrite Hx. simpl. by rewrite graft_graft.
Qed.

Lemma focus_copytree src x t o e :
  diverge T src = true → t !! x = None →
  shutil_copytree src (T </> x) (World (graft T (Dir t) n) o e)
  = match lookup_path src n with
    | Some (Dir b) => Ok tt (World (graft T (Dir (<[x:=Dir b]> t)) n) o e)
    | Some (File _) =>
        Raise NotADirectoryError (World (graft T (Dir t) n) o e)
    | None => Raise FileNotFoundError (World (graft T (Dir t) n) o e)
    end.
Proof.
  intros Hd Hx. unfold shutil_copytree. cbn [fs].
  rewrite (focus_outside _ _ Hd), focus_lookup.
  destruct (lookup_path src n) as [[?|b]|]; try done.
  simpl lookup_path. rewrite Hx. simpl.
  rewrite bind_eq, focus_makedirs_fresh by done.
  rewrite focus_syscall by done. rewrite os_op_single. unfold put_entry.
  change (copy_node (Dir b)) with (Dir (copy_node <$> b)).
  change (partial_alter (λ _, Some (Dir (copy_node <$> b))) x (<[x:=Dir ∅]> t))
    with (<[x:=copy_node (Dir b)]> (<[x:=Dir ∅]> t)).
  by rewrite insert_insert_eq, copy_node_id.
Qed.

Lemma focus_rmtree x t o e :
  shutil_rmtree (T </> x) (World (graft T (Dir t) n) o e)
  = match t !! x with
    | Some (Dir _) => Ok tt (World (graft T (Dir (delete x t)) n) o e)
    | Some (File _) =>
        Raise NotADirectoryError (World (graft T (Dir t) n) o e)
    | None => Raise FileNotFoundError (World (graft T (Dir t) n) o e)
    end.
Proof.
  unfold shutil_rmtree. rewrite focus_syscall by done. rewrite os_op_single.
  by destruct (t !! x) as [[?|?]|].
Qed.

(** Replacing bin: what is there goes, the source comes. *)
Lemma focus_bin src t o e :
  diverge T src = true →
  (ex ← Path_exists (T </> "bin");
   (if ex : bool then shutil_rmtree (T </> "bin") else ret tt);;
   shutil_copytree src (T </> "bin")) (World (graft T (Dir t) n) o e)
  = match t !! "bin" with
    | Some (File _) =>
        Raise NotADirectoryError (World (graft T (Dir t) n) o e)
    | _ =>
        match lookup_path src n with
        | Some (Dir b) =>
            Ok tt (World (graft T (Dir (<["bin":=Dir b]> t)) n) o e)
        | Some (File _) =>
            Raise NotADirectoryError
              (World (graft T (Dir (delete "bin" t)) n) o e)
        | None =>
            Raise FileNotFoundError
              (World (graft T (Dir (delete "bin" t)) n) o e)
        end
    end.
Proof.
  intros Hd. rewrite bind_eq, focus_exists. cbv beta iota.
  simpl lookup_path. rewrite bind_eq.
  destruct (t !! "bin") as [[?|bb]|] eqn:Hb; simpl.
  - by rewrite focus_rmtree, Hb.
  - rewrite focus_rmtree, Hb.
    rewrite focus_copytree by (done || apply lookup_delete_eq).
    destruct (lookup_path src n) as [[?|?]|]; try done.
    by rewrite insert_delete_eq.
  - rewrite focus_copytree by done.
    rewrite delete_id by done.
    by destruct (lookup_path src n) as [[?|?]|].
Qed.

Lemma focus_sweep_item x y t s o e :
  t !! x = Some (Dir s) → is_Some (s !! y) →
  sweep_item (T ++ [x; y]) (World (graft T (Dir t) n) o e)
  = Ok tt (World (graft T (Dir (<[x:=Dir (if decide (kept y) then s
                                           else delete y s)]> t)) n) o e).
Proof.
  intros Hx [c Hy]. unfold sweep_item.
  assert (name (T ++ [x; y]) = y) as ->.
  { replace (T ++ [x; y]) with ((T ++ [x]) ++ [y]) by (by rewrite <-app_assoc).
    apply name_snoc. }
  destruct (decide (kept y)) as [Hk|Hk].
  - rewrite insert_id by done.
    destruct Hk as [-> | ->]; by rewrite ?bool_decide_false by naive_solver.
  - rewrite !bool_decide_true by (intros ->; apply Hk; by constructor).
    cbn [andb]. rewrite bind_eq, focus_is_dir. cbv beta iota.
    rewrite (lookup_path_double _ _ _ _ Hx), Hy.
    destruct c as [d|m]; cbn [is_dir_node].
    + unfold Path_unlink. rewrite focus_syscall by done.
      by rewrite (os_op_double _ _ _ _ _ Hx), Hy.
    + unfold shutil_rmtree. rewrite focus_syscall by done.
      by rewrite (os_op_double _ _ _ _ _ Hx), Hy.
Qed.

Lemma focus_sweep_loop x l t s o e :
  t !! x = Some (Dir s) → NoDup l → (∀ y, y ∈ l → is_Some (s !! y)) →
  for_each ((λ y, T </> x </> y) <$> l) sweep_item
    (World (graft T (Dir t) n) o e)
  = Ok tt (World (graft T (Dir (<[x:=Dir (sweep_names l s)]> t)) n) o e).
Proof.
  revert t s. induction l as [|y l IH]; intros t s Hx Hnd Hin; simpl.
  - by rewrite insert_id.
  - apply NoDup_cons in Hnd as [Hy Hnd].
    rewrite bind_eq, <-app_assoc. cbn [app].
    rewrite (focus_sweep_item x y t s) by (done || apply Hin; by left).
    rewrite (IH _ (if decide (kept y) then s else delete y s)).
    + by rewrite insert_insert_eq.
    + by rewrite lookup_insert_eq.
    + done.
    + intros z Hz. destruct (decide (kept y)); [apply Hin; by right|].
      rewrite lookup_delete_ne by (intros ->; done). apply Hin. by right.
Qed.

Lemma focus_sweep x t s o e :
  t !! x = Some (Dir s) →
  (items ← Path_iterdir (T </> x); for_each items sweep_item)
    (World (graft T (Dir t) n) o e)
  = Ok tt (World (graft T (Dir (<[x:=Dir (swept s)]> t)) n) o e).
Proof.
  intros Hx. rewrite bind_eq. unfold Path_iterdir. cbn [fs].
  rewrite focus_lookup. simpl lookup_path. rewrite Hx. simpl.
  rewrite (focus_sweep_loop x _ t s); [by rewrite sweep_names_all|done|..].
  - apply NoDup_fst_map_to_list.
  - intros y [[y' c] [-> Hc]]%list_elem_of_fmap.
    apply elem_of_map_to_list in Hc. simpl. eauto.
Qed.
End Focus.

(** ** The runs of the script *)

Lemma bind2_eq {A B} (c1 : M A) (c2 : A → M unit) (K : M B) w :
  (a ← c1; c2 a;; K) w
  = match (a ← c1; c2 a) w with
    | Ok _ w' => K w'
    | Raise e w' => Raise e w'
    end.
Proof. unfold bind. by destruct (c1 w). Qed.

Lemma bind3_eq {A B} (c1 : M A) (c2 : A → M unit) (c3 : M unit) (K : M B) w :
  (a ← c1; c2 a;; c3;; K) w
  = match (a ← c1; c2 a;; c3) w with
    | Ok _ w' => K w'
    | Raise e w' => Raise e w'
    end.
Proof. unfold bind. destruct (c1 w) as [a w1|]; [|done]. by destruct (c2 a w1). Qed.

Lemma focus_mkdir_dir T n (HT : is_Some (lookup_path T n)) x t o e :
  is_file_node (t !! x) = false →
  Path_mkdir false true (T </> x) (World (graft T (Dir t) n) o e)
  = Ok tt (World (graft T (Dir
      (<[x:=Dir (match t !! x with Some (Dir s) => s | _ => ∅ end)]> t)) n) o e).
Proof.
  intros Hf. rewrite focus_mkdir by done.
  destruct (t !! x) as [[?|s]|] eqn:Hx; try done.
  by rewrite insert_id.
Qed.

Lemma bundle_into_fill artifact bin t :
  bundle_into artifact bin t =
  match t !! "server" with
  | Some (File _) => None
  | server =>
      fill_target artifact bin
        (match server with Some (Dir s) => s | _ => ∅ end) t
  end.
Proof. done. Qed.

Section Run.
Context (repo_root : path).

Lemma core_dir_eq : core_dir repo_root = repo_root ++ ["core"].
Proof.
  unfold core_dir, script_dir, __file__, parent.
  by rewrite !removelast_last.
Qed.

Lemma script_dir_eq : script_dir repo_root = repo_root ++ ["sdks"; "python"].
Proof.
  unfold script_dir, __file__, parent.
  rewrite !removelast_last. by rewrite <-!app_assoc.
Qed.

Lemma target_dir_eq :
  target_dir repo_root = repo_root ++ ["sdks"; "python"; "pmxt"; "_server"].
Proof. unfold target_dir. rewrite script_dir_eq. by rewrite <-!app_assoc. Qed.

Lemma bundled_server_eq :
  bundled_server repo_root
  = repo_root ++ ["core"; "dist"; "server"; "bundled.js"].
Proof.
  unfold bundled_server, server_dist. rewrite core_dir_eq.
  by rewrite <-!app_assoc.
Qed.

Lemma bin_dir_eq : bin_dir repo_root = repo_root ++ ["core"; "bin"].
Proof. unfold bin_dir. rewrite core_dir_eq. by rewrite <-!app_assoc. Qed.

Lemma diverge_target_bundled :
  diverge (target_dir repo_root) (bundled_server repo_root) = true.
Proof. by rewrite target_dir_eq, bundled_server_eq, diverge_app. Qed.

Lemma diverge_target_bin :
  diverge (target_dir repo_root) (bin_dir repo_root) = true.
Proof. by rewrite target_dir_eq, bin_dir_eq, diverge_app. Qed.

Lemma diverge_target_core :
  diverge (target_dir repo_root) (core_dir repo_root) = true.
Proof. by rewrite target_dir_eq, core_dir_eq, diverge_app. Qed.

Lemma name_bundled_server : name (bundled_server repo_root) = "bundled.js".
Proof. unfold bundled_server. apply name_snoc. Qed.

(** The checks *)

Lemma bundle_server_no_core w :
  lookup_path (core_dir repo_root) (fs w) = None →
  bundle_server repo_root w
  = Ok false (World (fs w) (stdout w) (stderr w ++ core_missing repo_root)).
Proof.
  intros H. unfold bundle_server. rewrite bind_eq. unfold Path_exists at 1.
  rewrite H. cbn. by rewrite <-app_assoc.
Qed.

Lemma bundle_server_no_artifact w :
  is_Some (lookup_path (core_dir repo_root) (fs w)) →
  lookup_path (bundled_server repo_root) (fs w) = None →
  bundle_server repo_root w
  = Ok false (World (fs w) (stdout w)
                (stderr w ++ artifact_missing repo_root)).
Proof.
  intros [c Hc] H. unfold bundle_server. rewrite bind_eq.
  unfold Path_exists at 1. rewrite Hc. cbn [is_some negb]. cbv iota.
  rewrite bind_eq. unfold Path_exists at 1.
  rewrite H. cbn. by rewrite <-app_assoc.
Qed.

Lemma bundle_server_no_bin w :
  is_Some (lookup_path (core_dir repo_root) (fs w)) →
  is_Some (lookup_path (bundled_server repo_root) (fs w)) →
  lookup_path (bin_dir repo_root) (fs w) = None →
  bundle_server repo_root w
  = Ok false (World (fs w) (stdout w) (stderr w ++ bin_missing repo_root)).
Proof.
  intros [c Hc] [a Ha] H. unfold bundle_server. rewrite bind_eq.
  unfold Path_exists at 1. rewrite Hc. cbn [is_some negb]. cbv iota.
  rewrite bind_eq. unfold Path_exists at 1. rewrite Ha.
  cbn [is_some negb]. cbv iota.
  rewrite bind_eq. unfold Path_exists at 1. rewrite H. by cbn.
Qed.

(** The statements after the server directory is made *)
Lemma bundle_server_tail fs1 t s0 a b o e r :
  is_Some (lookup_path (target_dir repo_root) fs1) →
  lookup_path (bundled_server repo_root) fs1 = Some a →
  lookup_path (bin_dir repo_root) fs1 = Some b →
  r = (shutil_copy (bundled_server repo_root)
         (target_dir repo_root </> "server" </> "bundled.js");;
       print
         ("Copying bin from " +:+
          str (bin_dir repo_root) +:+
          " to " +:+ str (target_dir repo_root </> "bin") +:+ "...");;
       e ← Path_exists (target_dir repo_root </> "bin");
       (if e : bool
        then shutil_rmtree (target_dir repo_root </> "bin")
        else ret ());;
       shutil_copytree (bin_dir repo_root) (target_dir repo_root </> "bin");;
       items ← Path_iterdir (target_dir repo_root </> "server");
       for_each items sweep_item;;
       Path_touch (target_dir repo_root </> "__init__.py");; ret true)
        (World (graft (target_dir repo_root)
                  (Dir (<["server":=Dir s0]> t)) fs1) o e) →
  match fill_target (Some a) (Some b) s0 t with
  | Some t' =>
      r = Ok true
            (World (graft (target_dir repo_root) (Dir t') fs1)
               (o </> ("Copying bin from " +:+
                       str (bin_dir repo_root) +:+
                       " to " +:+ str (target_dir repo_root </> "bin")
                       +:+ "...")) e)
  | None => ∃ e' w', r = Raise e' w'
  end.
Proof.
  intros HT Hart Hbin Hr. unfold fill_target.
  rewrite bind_eq, <-app_assoc in Hr. cbn [app] in Hr.
  rewrite (focus_copy _ _ HT _ _ s0) in Hr
    by (apply diverge_target_bundled || apply name_bundled_server
        || apply lookup_insert_eq).
  rewrite Hart in Hr.
  destruct a as [data|]; [|eauto].
  destruct (copy_into data s0) as [s'|]; [|eauto].
  rewrite insert_insert_eq in Hr.
  rewrite bind_eq in Hr. unfold print at 1 in Hr.
  cbn [fs stdout stderr] in Hr.
  rewrite bind3_eq, (focus_bin _ _ HT) in Hr by apply diverge_target_bin.
  rewrite lookup_insert_ne, Hbin in Hr by done.
  destruct (t !! "bin") as [[?|?]|] eqn:Hb'; [eauto| |];
    (destruct b as [?|b]; [eauto|]);
    rewrite bind2_eq, (focus_sweep _ _ HT _ _ s') in Hr
      by (by rewrite lookup_insert_ne, lookup_insert_eq);
    rewrite bind_eq, (focus_touch _ _ HT) in Hr;
    rewrite Hr; unfold ret; do 4 f_equal;
    apply map_eq; intros k; rewrite !lookup_insert;
    repeat case_decide; simplify_eq; done.
Qed.

(** A run that passes the three checks *)
Lemma bundle_server_run w :
  is_Some (lookup_path (core_dir repo_root) (fs w)) →
  is_Some (lookup_path (bundled_server repo_root) (fs w)) →
  is_Some (lookup_path (bin_dir repo_root) (fs w)) →
  match makedirs (target_dir repo_root) (Some (fs w)) with
  | inl e => bundle_server repo_root w = Raise e w
  | inr fs1 =>
      ∃ t, lookup_path (target_dir repo_root) fs1 = Some (Dir t) ∧
      match bundle_into (lookup_path (bundled_server repo_root) (fs w))
              (lookup_path (bin_dir repo_root) (fs w)) t with
      | Some t' =>
          bundle_server repo_root w
          = Ok true (World (graft (target_dir repo_root) (Dir t') fs1)
                       (stdout w ++ progress repo_root) (stderr w))
      | None => ∃ e w', bundle_server repo_root w = Raise e w'
      end
  end.
Proof.
  intros [c Hc] [a Ha] [b Hb].
  remember (bundle_server repo_root w) as r eqn:Hr.
  unfold bundle_server in Hr.
  rewrite bind_eq in Hr. unfold Path_exists at 1 in Hr. rewrite Hc in Hr.
  cbn [is_some negb] in Hr. cbv iota in Hr.
  rewrite bind_eq in Hr. unfold Path_exists at 1 in Hr. rewrite Ha in Hr.
  cbn [is_some negb] in Hr. cbv iota in Hr.
  rewrite bind_eq in Hr. unfold Path_exists at 1 in Hr. rewrite Hb in Hr.
  cbn [is_some negb] in Hr. cbv iota in Hr.
  rewrite bind_eq in Hr. unfold Path_mkdir at 1, syscall at 1 in Hr.
  rewrite Path_mkdir_fuel_parents in Hr by done.
  destruct (makedirs (target_dir repo_root) (Some (fs w))) as [e|fs1] eqn:Hmk;
    [done|].
  destruct (makedirs_graft _ _ _ Hmk) as (t & Ht & _).
  exists t. split; [done|].
  assert (is_Some (lookup_path (target_dir repo_root) fs1)) as HT by eauto.
  pose proof (makedirs_frame _ _ _ _ Hmk diverge_target_bundled) as Hart.
  pose proof (makedirs_frame _ _ _ _ Hmk diverge_target_bin) as Hbin.
  simpl in Hart, Hbin. rewrite Ha in Hart. rewrite Hb in Hbin.
  rewrite Ha, Hb.
  replace (World fs1 (stdout w) (stderr w))
    with (World (graft (target_dir repo_root) (Dir t) fs1)
            (stdout w) (stderr w)) in Hr by (by rewrite graft_id).
  rewrite bind_eq in Hr. unfold print at 1 in Hr. cbn [fs stdout stderr] in Hr.
  unfold server_target in Hr. rewrite bundle_into_fill.
  rewrite bind_eq in Hr.
  destruct (is_file_node (t !! "server")) eqn:Hf.
  { rewrite focus_mkdir in Hr by done.
    destruct (t !! "server") as [[?|?]|]; try done. eauto. }
  rewrite focus_mkdir_dir in Hr by done.
  apply (bundle_server_tail _ _ _ a b) in Hr; [|done..].
  destruct (t !! "server") as [[?|s]|]; [done| |];
    (destruct (fill_target _ _ _ _); [|done]);
    rewrite Hr; unfold progress; by rewrite <-app_assoc.
Qed.
End Run.

(** ** What the specification functions promise *)

Lemma lookup_path_prefix p q n :
  is_Some (lookup_path (p ++ q) n) → is_Some (lookup_path p n).
Proof.
  rewrite lookup_path_app. destruct (lookup_path p n); [eauto|].
  by intros [? ?].
Qed.

Lemma makedirs_below p q n n' t :
  makedirs p (Some n) = inr n' → lookup_path p n' = Some (Dir t) → q ≠ [] →
  lookup_path (p ++ q) n = lookup_path q (Dir t).
Proof.
  intros Hmk Ht Hq. rewrite lookup_path_app.
  destruct (lookup_path p n) as [c|] eqn:Hc.
  - rewrite (makedirs_existing _ _ _ Hc) in Hmk. destruct c; [done|].
    injection Hmk as <-. rewrite Hc in Ht. by injection Ht as ->.
  - rewrite (makedirs_fresh p (Some n) n') in Ht by done. simplify_eq.
    destruct q; [done|]. simpl. by rewrite lookup_empty.
Qed.

Lemma swept_lookup (s : gmap string node) x :
  swept s !! x = if decide (kept x) then s !! x else None.
Proof.
  unfold swept. rewrite map_lookup_filter.
  destruct (s !! x) as [c|]; simpl; [|by destruct (decide _)].
  destruct (decide (kept x)).
  - by rewrite option_guard_True.
  - by rewrite option_guard_False.
Qed.

Lemma swept_swept (s : gmap string node) : swept (swept s) = swept s.
Proof.
  apply map_eq. intros x. rewrite !swept_lookup. by destruct (decide _).
Qed.

Lemma swept_insert_kept (s : gmap string node) x c :
  kept x → swept (<[x:=c]> s) = <[x:=c]> (swept s).
Proof.
  intros Hx. apply map_eq. intros y.
  rewrite swept_lookup, !lookup_insert, swept_lookup.
  destruct (decide (x = y)) as [->|]; [by rewrite decide_True|done].
Qed.

Lemma kept_bundled : kept "bundled.js".
Proof. by left. Qed.

Lemma kept_pycache : kept "__pycache__".
Proof. by right. Qed.

Lemma copy_into_Some data s s' :
  copy_into data s = Some s' →
  ∃ c, s' = <["bundled.js":=c]> s ∧
       (c = File data ∨
        ∃ d, c = Dir (<["bundled.js":=File data]> d)
             ∧ s !! "bundled.js" = Some (Dir d)) ∧
       (is_dir_node (s !! "bundled.js") = false → c = File data).
Proof.
  unfold copy_into. intros H.
  destruct (s !! "bundled.js") as [[?|d]|] eqn:Hb.
  - injection H as <-. exists (File data). auto.
  - assert (s' = <["bundled.js":=Dir (<["bundled.js":=File data]> d)]> s)
      as -> by (destruct (d !! "bundled.js") as [[?|?]|]; congruence).
    eexists. split; [done|]. split; [|done]. right. eauto.
  - injection H as <-. exists (File data). auto.
Qed.

(** The entry [bundled.js] after the copy, from what was there. *)
Lemma copy_into_entry data s s' :
  copy_into data s = Some s' →
  s' = <["bundled.js" :=
           match s !! "bundled.js" with
           | Some (Dir d) => Dir (<["bundled.js" := File data]> d)
           | _ => File data
           end]> s.
Proof.
  unfold copy_into. intros H.
  destruct (s !! "bundled.js") as [[?|d]|]; [congruence| |congruence].
  destruct (d !! "bundled.js") as [[?|?]|]; congruence.
Qed.

Lemma copy_into_swept data s s' :
  copy_into data s = Some s' → copy_into data (swept s') = Some (swept s').
Proof.
  intros (c & -> & [->|(d & -> & _)] & _)%copy_into_Some;
    rewrite (swept_insert_kept _ _ _ kept_bundled);
    unfold copy_into; rewrite !lookup_insert_eq;
    by rewrite !insert_insert_eq.
Qed.

(** What [bundle_into] needs and what it gives *)
Lemma bundle_into_Some a b t t' :
  bundle_into a b t = Some t' →
  ∃ data bb s',
    a = Some (File data) ∧ b = Some (Dir bb) ∧
    is_file_node (t !! "server") = false ∧
    is_file_node (t !! "bin") = false ∧
    copy_into data (match t !! "server" with Some (Dir s) => s | _ => ∅ end)
    = Some s' ∧
    t' = <["__init__.py":=default (File "") (t !! "__init__.py")]>
           (<["server":=Dir (swept s')]> (<["bin":=Dir bb]> t)).
Proof.
  unfold bundle_into, fill_target. intros H.
  destruct a as [[data|?]|]; try by destruct (t !! "server") as [[?|?]|].
  destruct b as [[?|bb]|];
    try (by destruct (t !! "server") as [[?|?]|];
           try destruct (copy_into _ _); destruct (t !! "bin") as [[?|?]|]).
  exists data, bb.
  destruct (t !! "server") as [[?|s]|]; [done| |];
    (destruct (copy_into data _) as [s'|]; [|done]);
    exists s'; by destruct (t !! "bin") as [[?|?]|]; simplify_eq.
Qed.

Lemma bundle_into_lookup_server a b t t' :
  bundle_into a b t = Some t' →
  ∃ s', t' !! "server" = Some (Dir (swept s')) ∧
        ∃ data, a = Some (File data) ∧
        copy_into data (match t !! "server" with Some (Dir s) => s | _ => ∅ end)
        = Some s'.
Proof.
  intros (data & bb & s' & -> & -> & _ & _ & Hc & ->)%bundle_into_Some.
  exists s'. rewrite lookup_insert_ne, lookup_insert_eq by done. eauto.
Qed.

(** A second run finds everything in place. *)
Lemma bundle_into_again a b t t' :
  bundle_into a b t = Some t' → bundle_into a b t' = Some t'.
Proof.
  intros (data & bb & s' & -> & -> & _ & _ & Hc & ->)%bundle_into_Some.
  unfold bundle_into, fill_target.
  rewrite (lookup_insert_ne _ "__init__.py" "server") by done.
  rewrite lookup_insert_eq.
  rewrite (copy_into_swept _ _ _ Hc), swept_swept.
  rewrite (lookup_insert_ne _ "__init__.py" "bin") by done.
  rewrite (lookup_insert_ne _ "server" "bin") by done.
  rewrite !lookup_insert_eq. cbn [default]. f_equal.
  apply map_eq. intros k. rewrite !lookup_insert.
  repeat case_decide; simplify_eq; done.
Qed.

Lemma lookup_path_single x (t : gmap string node) :
  lookup_path [x] (Dir t) = t !! x.
Proof. simpl. by destruct (t !! x). Qed.

(** When the copies into the target directory get through. *)
Lemma bundle_into_is_Some data b (t : gmap string node) :
  is_Some (bundle_into (Some (File data)) (Some (Dir b)) t) ↔
  is_file_node (t !! "server") = false ∧
  is_file_node (t !! "bin") = false ∧
  is_dir_node (lookup_path ["server"; "bundled.js"; "bundled.js"] (Dir t))
  = false.
Proof.
  unfold bundle_into, fill_target, copy_into. simpl.
  destruct (t !! "server") as [[?|s]|]; simpl;
    [|destruct (s !! "bundled.js") as [[?|d]|]; simpl;
      [|destruct (d !! "bundled.js") as [[?|?]|]; simpl|]|];
    destruct (t !! "bin") as [[?|?]|]; simpl;
    rewrite ?lookup_empty; split;
    try (intros [? ?]; done); try (intros (? & ? & ?); done); eauto.
Qed.

(** ** What a run tells *)

Section Outcomes.
Context (repo_root : path).

(** The three checks only ask whether something is there. *)
Lemma bundle_server_not_false w w' :
  is_Some (lookup_path (core_dir repo_root) (fs w)) →
  is_Some (lookup_path (bundled_server repo_root) (fs w)) →
  is_Some (lookup_path (bin_dir repo_root) (fs w)) →
  bundle_server repo_root w ≠ Ok false w'.
Proof.
  intros Hc Ha Hb H. pose proof (bundle_server_run repo_root w Hc Ha Hb) as Hr.
  destruct (makedirs _ _) as [e|fs1]; [congruence|].
  destruct Hr as (t & _ & Hr).
  destruct (bundle_into _ _ t); [congruence|].
  destruct Hr as (e & w'' & Hr). congruence.
Qed.

(** All a run that returns [True] tells. *)
Lemma bundle_server_true w w' :
  bundle_server repo_root w = Ok true w' →
  ∃ data b fs1 t t',
    is_Some (lookup_path (core_dir repo_root) (fs w)) ∧
    lookup_path (bundled_server repo_root) (fs w) = Some (File data) ∧
    lookup_path (bin_dir repo_root) (fs w) = Some (Dir b) ∧
    makedirs (target_dir repo_root) (Some (fs w)) = inr fs1 ∧
    lookup_path (target_dir repo_root) fs1 = Some (Dir t) ∧
    bundle_into (Some (File data)) (Some (Dir b)) t = Some t' ∧
    w' = World (graft (target_dir repo_root) (Dir t') fs1)
           (stdout w ++ progress repo_root) (stderr w).
Proof.
  intros H.
  destruct (lookup_path (core_dir repo_root) (fs w)) as [c|] eqn:Hc.
  2:{ rewrite bundle_server_no_core in H by done. congruence. }
  destruct (lookup_path (bundled_server repo_root) (fs w)) as [a|] eqn:Ha.
  2:{ rewrite bundle_server_no_artifact in H by eauto. congruence. }
  destruct (lookup_path (bin_dir repo_root) (fs w)) as [b|] eqn:Hb.
  2:{ rewrite bundle_server_no_bin in H by eauto. congruence. }
  pose proof (bundle_server_run repo_root w) as Hr.
  rewrite Hc, Ha, Hb in Hr. specialize (Hr ltac:(eauto) ltac:(eauto) ltac:(eauto)).
  destruct (makedirs _ _) as [e|fs1] eqn:Hmk; [congruence|].
  destruct Hr as (t & Ht & Hr).
  destruct (bundle_into _ _ t) as [t'|] eqn:Hbi.
  2:{ destruct Hr as (e & w'' & Hr). congruence. }
  destruct (bundle_into_Some _ _ _ _ Hbi) as (data & bb & s' & ? & ? & _).
  simplify_eq. exists data, bb, fs1, t, t'.
  rewrite Hr in H. injection H as <-. eauto 10.
Qed.

(** What was below the target directory before the run, seen from the
    directory [makedirs] hands over. *)
Lemma before_run_below w fs1 t q :
  makedirs (target_dir repo_root) (Some (fs w)) = inr fs1 →
  lookup_path (target_dir repo_root) fs1 = Some (Dir t) → q ≠ [] →
  lookup_path (target_dir repo_root ++ q) (fs w) = lookup_path q (Dir t).
Proof. apply makedirs_below. Qed.

Lemma server_entry_before (t : gmap string node) x :
  is_file_node (t !! "server") = false →
  lookup_path ["server"; x] (Dir t)
  = (match t !! "server" with Some (Dir s) => s | _ => ∅ end) !! x.
Proof.
  intros H. simpl. destruct (t !! "server") as [[?|s]|]; simpl; try done.
  by destruct (s !! x).
Qed.

(** The server directory after a run that returns [True]: the entry
    [bundled.js] is the artifact, or the directory that was there with the
    artifact inside; [__pycache__] is what it was; there is nothing else. *)
Lemma server_after_run w w' :
  bundle_server repo_root w = Ok true w' →
  ∃ data c s',
    lookup_path (bundled_server repo_root) (fs w) = Some (File data) ∧
    lookup_path (server_target repo_root) (fs w') = Some (Dir s') ∧
    (c = File data ∨
     ∃ d, c = Dir (<["bundled.js":=File data]> d) ∧
          lookup_path (server_target repo_root </> "bundled.js") (fs w)
          = Some (Dir d)) ∧
    (is_dir_node
       (lookup_path (server_target repo_root </> "bundled.js") (fs w))
     = false → c = File data) ∧
    ∀ x, s' !! x =
         if decide (x = "bundled.js") then Some c
         else if decide (x = "__pycache__")
              then lookup_path (server_target repo_root </> x) (fs w)
              else None.
Proof.
  intros (data & b & fs1 & t & t' & _ & Ha & _ & Hmk & Ht & Hbi & ->)
    %bundle_server_true.
  destruct (bundle_into_Some _ _ _ _ Hbi)
    as (data' & bb & sc & [= <-] & _ & Hf & _ & Hc & ->).
  destruct (copy_into_Some _ _ _ Hc) as (c & -> & Hcase & Hfile).
  assert (∀ x, lookup_path (server_target repo_root </> x) (fs w)
               = (match t !! "server" with Some (Dir s) => s | _ => ∅ end)
                   !! x) as Hbefore.
  { intros x. unfold server_target. rewrite <-app_assoc. cbn [app].
    rewrite (before_run_below _ _ _ _ Hmk Ht) by done.
    by apply server_entry_before. }
  exists data, c. eexists. split; [done|]. split.
  { unfold server_target. cbn [fs].
    rewrite lookup_path_graft by eauto. simpl.
    by rewrite lookup_insert_ne, lookup_insert_eq. }
  rewrite Hbefore. split; [|split; [done|]].
  { destruct Hcase as [->|(d & -> & Hd)]; [by left|]. right. eauto. }
  intros x. rewrite swept_lookup, lookup_insert, Hbefore. unfold kept.
  destruct (decide (x = "bundled.js")) as [->|Hx].
  - rewrite decide_True by auto. by rewrite decide_True.
  - rewrite (decide_False (P:="bundled.js" = x)) by done.
    destruct (decide (x = "__pycache__")) as [->|Hy].
    + by rewrite decide_True by auto.
    + by rewrite decide_False by tauto.
Qed.
End Outcomes.

Section Runs.
Context (repo_root : path).

Lemma source_after_run w w' p :
  bundle_server repo_root w = Ok true w' →
  diverge (target_dir repo_root) p = true →
  lookup_path p (fs w') = lookup_path p (fs w).
Proof.
  intros (data & b & fs1 & t & t' & _ & _ & _ & Hmk & _ & _ & ->)
    %bundle_server_true Hd.
  cbn [fs]. rewrite lookup_path_graft_diverge by done.
  by rewrite (makedirs_frame _ _ _ _ Hmk Hd).
Qed.

Lemma bin_after_run w w' :
  bundle_server repo_root w = Ok true w' →
  lookup_path (target_dir repo_root </> "bin") (fs w')
  = lookup_path (bin_dir repo_root) (fs w)
  ∧ is_dir_node (lookup_path (bin_dir repo_root) (fs w)) = true.
Proof.
  intros (data & b & fs1 & t & t' & _ & _ & Hb & Hmk & Ht & Hbi & ->)
    %bundle_server_true.
  destruct (bundle_into_Some _ _ _ _ Hbi)
    as (data' & bb & sc & _ & [= <-] & _ & _ & _ & ->).
  rewrite Hb. split; [|done]. cbn [fs].
  rewrite lookup_path_graft by eauto. simpl.
  by rewrite !lookup_insert_ne, lookup_insert_eq by done.
Qed.

Lemma second_run w w1 :
  bundle_server repo_root w = Ok true w1 →
  bundle_server repo_root w1
  = Ok true (World (fs w1) (stdout w1 ++ progress repo_root) (stderr w1)).
Proof.
  intros H.
  pose proof (source_after_run _ _ _ H (diverge_target_core repo_root)) as Hc.
  pose proof (source_after_run _ _ _ H (diverge_target_bundled repo_root))
    as Ha.
  pose proof (source_after_run _ _ _ H (diverge_target_bin repo_root)) as Hb.
  destruct (bundle_server_true _ _ _ H)
    as (data & b & fs1 & t & t' & Hc' & Ha' & Hb' & Hmk & Ht & Hbi & ->).
  set (w1 := World _ _ _) in *.
  assert (lookup_path (target_dir repo_root) (fs w1) = Some (Dir t')) as Ht1.
  { unfold w1. cbn [fs]. apply lookup_path_graft_same. eauto. }
  pose proof (bundle_server_run repo_root w1) as Hr.
  rewrite Hc, Ha, Hb, Ha', Hb' in Hr.
  specialize (Hr Hc' ltac:(eauto) ltac:(eauto)).
  rewrite (makedirs_existing _ _ _ Ht1) in Hr.
  destruct Hr as (t2 & Ht2 & Hr). rewrite Ht1 in Ht2. injection Ht2 as <-.
  rewrite (bundle_into_again _ _ _ _ Hbi) in Hr. rewrite Hr.
  f_equal. f_equal. by apply graft_id.
Qed.

Lemma bundle_into_empty data b :
  bundle_into (Some (File data)) (Some (Dir b)) ∅
  = Some (fresh_target data b).
Proof.
  unfold bundle_into, fill_target, copy_into. rewrite !lookup_empty.
  reflexivity.
Qed.

Lemma first_run w data b :
  lookup_path (bundled_server repo_root) (fs w) = Some (File data) →
  lookup_path (bin_dir repo_root) (fs w) = Some (Dir b) →
  Forall (λ q, is_file_node (lookup_path q (fs w)) = false)
    (parents (target_dir repo_root)) →
  lookup_path (target_dir repo_root) (fs w) = None →
  ∃ w', bundle_server repo_root w = Ok true w' ∧
        lookup_path (target_dir repo_root) (fs w')
        = Some (Dir (fresh_target data b)).
Proof.
  intros Ha Hb Hpar Ht.
  destruct (makedirs_ok (target_dir repo_root) (Some (fs w))) as [fs1 Hmk];
    [done|by simpl; rewrite Ht|].
  pose proof (bundle_server_run repo_root w) as Hr.
  rewrite Ha, Hb, Hmk in Hr.
  destruct Hr as (t & Ht1 & Hr); [|eauto..].
  { apply (lookup_path_prefix _ ["dist"; "server"; "bundled.js"]).
    unfold bundled_server, server_dist in Ha.
    rewrite <-!app_assoc in Ha. cbn [app] in Ha. rewrite Ha. eauto. }
  rewrite (makedirs_fresh _ (Some (fs w)) fs1) in Ht1 by done.
  injection Ht1 as <-. rewrite bundle_into_empty in Hr.
  eexists. split; [done|]. cbn [fs].
  apply lookup_path_graft_same.
  rewrite (makedirs_fresh _ (Some (fs w)) fs1) by done. eauto.
Qed.

(** A run over a target directory that is there. *)
Lemma run_over_target w data b t t' :
  lookup_path (bundled_server repo_root) (fs w) = Some (File data) →
  lookup_path (bin_dir repo_root) (fs w) = Some (Dir b) →
  lookup_path (target_dir repo_root) (fs w) = Some (Dir t) →
  bundle_into (Some (File data)) (Some (Dir b)) t = Some t' →
  bundle_server repo_root w
  = Ok true (World (graft (target_dir repo_root) (Dir t') (fs w))
               (stdout w ++ progress repo_root) (stderr w)).
Proof.
  intros Ha Hb Ht Hbi.
  pose proof (bundle_server_run repo_root w) as Hr.
  rewrite Ha, Hb, (makedirs_existing _ _ _ Ht) in Hr.
  destruct Hr as (t1 & Ht1 & Hr); [|eauto..].
  { apply (lookup_path_prefix _ ["dist"; "server"; "bundled.js"]).
    unfold bundled_server, server_dist in Ha.
    rewrite <-!app_assoc in Ha. cbn [app] in Ha. rewrite Ha. eauto. }
  rewrite Ht in Ht1. injection Ht1 as <-. by rewrite Hbi in Hr.
Qed.
End Runs.

(** ** The claims of the specification *)

Section Claims.
Context (repo_root : path).

(** C1, as amended.  In every file system where the artifact
    [../../core/dist/server/bundled.js] is a regular file, [../../core/bin]
    is a directory, nothing is at [./pmxt/_server] and no directory on the
    way to it (such as [./pmxt]) is taken by a regular file,
    [bundle_server] returns [True]; afterwards the target directory holds
    exactly [server/bundled.js] with the bytes of the artifact, [bin] equal
    to the source bin directory and an empty [__init__.py]. *)
Theorem C1_first_run_builds_target w data b :
  lookup_path (bundled_server repo_root) (fs w) = Some (File data) →
  lookup_path (bin_dir repo_root) (fs w) = Some (Dir b) →
  lookup_path (target_dir repo_root) (fs w) = None →
  Forall (λ q, is_file_node (lookup_path q (fs w)) = false)
    (parents (target_dir repo_root)) →
  ∃ w', bundle_server repo_root w = Ok true w' ∧
        lookup_path (target_dir repo_root) (fs w')
        = Some (Dir {[ "server" := Dir {[ "bundled.js" := File data ]};
                       "bin" := Dir b;
                       "__init__.py" := File "" ]}) ∧
        lookup_path (server_target repo_root </> "bundled.js") (fs w')
        = lookup_path (bundled_server repo_root) (fs w) ∧
        lookup_path (target_dir repo_root </> "bin") (fs w')
        = lookup_path (bin_dir repo_root) (fs w) ∧
        lookup_path (target_dir repo_root </> "__init__.py") (fs w')
        = Some (File "").
Proof.
  intros Ha Hb Ht Hpar.
  destruct (first_run repo_root w data b Ha Hb Hpar Ht) as (w' & Hrun & Hw').
  exists w'. split; [done|]. split; [done|].
  unfold server_target. rewrite <-app_assoc, !lookup_path_app, Hw', Ha, Hb.
  done.
Qed.

(** C2, as amended.  After a run that returns [True] the server
    subdirectory holds an entry [bundled.js], the entry [__pycache__] as it
    was before the run when there was one, whatever its kind, and nothing
    else.  The entry [bundled.js] is the regular file with the bytes of the
    artifact, except when a directory of that name was there before the
    run: then it is that directory, with what it held, and the artifact
    copied into it under the name [bundled.js]. *)
Theorem C2_server_directory_after_run w w' :
  bundle_server repo_root w = Ok true w' →
  ∃ data s',
    lookup_path (bundled_server repo_root) (fs w) = Some (File data) ∧
    lookup_path (server_target repo_root) (fs w') = Some (Dir s') ∧
    ∀ x, s' !! x =
         if decide (x = "bundled.js")
         then Some
                match lookup_path (server_target repo_root </> "bundled.js")
                        (fs w) with
                | Some (Dir d) => Dir (<["bundled.js" := File data]> d)
                | _ => File data
                end
         else if decide (x = "__pycache__")
              then lookup_path (server_target repo_root </> x) (fs w)
              else None.
Proof.
  intros (data & b & fs1 & t & t' & _ & Ha & _ & Hmk & Ht & Hbi & ->)
    %bundle_server_true.
  destruct (bundle_into_Some _ _ _ _ Hbi)
    as (data' & bb & sc & [= <-] & _ & Hf & _ & Hc & ->).
  apply copy_into_entry in Hc as ->.
  assert (∀ x, lookup_path (server_target repo_root </> x) (fs w)
               = (match t !! "server" with Some (Dir s) => s | _ => ∅ end)
                   !! x) as Hbefore.
  { intros x. unfold server_target. rewrite <-app_assoc. cbn [app].
    rewrite (before_run_below _ _ _ _ _ Hmk Ht) by done.
    by apply server_entry_before. }
  exists data. eexists. split; [done|]. split.
  { unfold server_target. cbn [fs].
    rewrite lookup_path_graft by eauto. simpl.
    by rewrite lookup_insert_ne, lookup_insert_eq. }
  intros x. rewrite swept_lookup, lookup_insert, !Hbefore. unfold kept.
  destruct (decide (x = "bundled.js")) as [->|Hx].
  - rewrite decide_True by auto. by rewrite decide_True.
  - rewrite (decide_False (P:="bundled.js" = x)) by done.
    destruct (decide (x = "__pycache__")) as [->|Hy].
    + by rewrite decide_True by auto.
    + by rewrite decide_False by tauto.
Qed.

(** C3.  After a run that returns [True] the destination bin directory is
    a directory equal to the source bin directory as it was when the run
    started: every path below the one resolves as it does below the other,
    so what was only in the destination is gone; the source is as it was.
    And a run over a destination bin directory that is there, whatever it
    holds, does return [True] and leaves the source bin directory in its
    place, when the artifact is a regular file, the source bin a directory
    and the copy of the artifact gets through (no regular file at the
    [server] entry, no directory at [server/bundled.js/bundled.js]): the old
    directory is removed, not merged into. *)
Theorem C3_bin_is_replaced_by_source w :
  (∀ w', bundle_server repo_root w = Ok true w' →
     is_dir_node (lookup_path (target_dir repo_root </> "bin") (fs w'))
     = true ∧
     lookup_path (target_dir repo_root </> "bin") (fs w')
     = lookup_path (bin_dir repo_root) (fs w) ∧
     lookup_path (bin_dir repo_root) (fs w')
     = lookup_path (bin_dir repo_root) (fs w) ∧
     ∀ q, lookup_path (target_dir repo_root </> "bin" ++ q) (fs w')
          = lookup_path (bin_dir repo_root ++ q) (fs w)) ∧
  (∀ data b old,
     lookup_path (bundled_server repo_root) (fs w) = Some (File data) →
     lookup_path (bin_dir repo_root) (fs w) = Some (Dir b) →
     lookup_path (target_dir repo_root </> "bin") (fs w) = Some (Dir old) →
     is_file_node (lookup_path (target_dir repo_root </> "server") (fs w))
     = false →
     is_dir_node
       (lookup_path
          (server_target repo_root </> "bundled.js" </> "bundled.js") (fs w))
     = false →
     ∃ w', bundle_server repo_root w = Ok true w' ∧
           lookup_path (target_dir repo_root </> "bin") (fs w')
           = Some (Dir b) ∧
           ∀ q, lookup_path (target_dir repo_root </> "bin" ++ q) (fs w')
                = lookup_path q (Dir b)).
Proof.
  assert (∀ w', bundle_server repo_root w = Ok true w' →
            lookup_path (target_dir repo_root </> "bin") (fs w')
            = lookup_path (bin_dir repo_root) (fs w) ∧
            is_dir_node (lookup_path (bin_dir repo_root) (fs w)) = true)
    as Hafter by apply bin_after_run.
  split.
  - intros w' H. destruct (Hafter w' H) as [Heq Hdir].
    split; [by rewrite Heq|]. split; [done|]. split.
    + apply (source_after_run repo_root w w' _ H), diverge_target_bin.
    + intros q. by rewrite (lookup_path_app (_ </> "bin")), Heq,
        <-lookup_path_app.
  - intros data b old Ha Hb Hold Hs Hbb.
    rewrite lookup_path_app in Hold.
    destruct (lookup_path (target_dir repo_root) (fs w)) as [[?|t]|] eqn:Ht;
      try done.
    assert (t !! "bin" = Some (Dir old)) as Htb.
    { rewrite <-Hold. symmetry. apply lookup_path_single. }
    rewrite (lookup_path_snoc _ _ _ _ Ht) in Hs.
    unfold server_target in Hbb.
    rewrite <-!app_assoc, lookup_path_app, Ht in Hbb.
    cbn [app mbind option_bind] in Hbb.
    destruct (proj2 (bundle_into_is_Some data b t)) as [t' Ht'].
    { split; [done|]. split; [by rewrite Htb|done]. }
    pose proof (run_over_target repo_root w data b t t' Ha Hb Ht Ht')
      as Hrun.
    eexists. split; [exact Hrun|].
    destruct (Hafter _ Hrun) as [Heq _]. rewrite Hb in Heq.
    split; [done|]. intros q.
    by rewrite (lookup_path_app (_ </> "bin")), Heq.
Qed.

(** C4.  When the core directory does not exist, [bundle_server] writes
    its two lines of diagnostic to the error stream and returns [False];
    the file system is the one it started with, so the target directory
    has not been created. *)
Theorem C4_missing_core_fails_without_change w :
  lookup_path (core_dir repo_root) (fs w) = None →
  bundle_server repo_root w
  = Ok false (World (fs w) (stdout w) (stderr w ++ core_missing repo_root)).
Proof. apply bundle_server_no_core. Qed.

(** C5.  When the core directory exists and the artifact or the bin
    directory is missing, [bundle_server] writes the diagnostic of the
    first check that fails to the error stream and returns [False]; the
    file system is the one it started with. *)
Theorem C5_missing_input_fails_without_change w :
  is_Some (lookup_path (core_dir repo_root) (fs w)) →
  lookup_path (bundled_server repo_root) (fs w) = None
  ∨ lookup_path (bin_dir repo_root) (fs w) = None →
  bundle_server repo_root w
  = Ok false
      (World (fs w) (stdout w)
         (stderr w ++
            if is_some (lookup_path (bundled_server repo_root) (fs w))
            then bin_missing repo_root
            else artifact_missing repo_root)).
Proof.
  intros Hc H.
  destruct (lookup_path (bundled_server repo_root) (fs w)) as [a|] eqn:Ha.
  - destruct H as [H|H]; [done|].
    apply bundle_server_no_bin; [done| |done]. rewrite Ha. eauto.
  - by apply bundle_server_no_artifact.
Qed.

(** C6, as amended.  When a run returns [True], a second run started on
    what the first left returns [True] as well and leaves the file system
    exactly as the first run left it; the first run has not touched the
    core directory, so both runs read the same source. *)
Theorem C6_second_run_changes_nothing w w1 :
  bundle_server repo_root w = Ok true w1 →
  lookup_path (core_dir repo_root) (fs w1)
  = lookup_path (core_dir repo_root) (fs w) ∧
  ∃ w2, bundle_server repo_root w1 = Ok true w2 ∧ fs w2 = fs w1.
Proof.
  intros H. split.
  - apply (source_after_run repo_root w w1 _ H), diverge_target_core.
  - eexists. split; [by apply (second_run repo_root w)|done].
Qed.

(** C7.  The process exits with status 0 exactly when [bundle_server]
    returns [True], and with status 1 when the core directory, the
    artifact or the bin directory is missing. *)
Theorem C7_exit_status w :
  ((main repo_root w).1 = 0%Z ↔ ∃ w', bundle_server repo_root w = Ok true w')
  ∧ (lookup_path (core_dir repo_root) (fs w) = None
     ∨ lookup_path (bundled_server repo_root) (fs w) = None
     ∨ lookup_path (bin_dir repo_root) (fs w) = None →
     (main repo_root w).1 = 1%Z).
Proof.
  unfold main. split.
  - destruct (bundle_server repo_root w) as [[] w'|e w']; simpl;
      split; try done; eauto; by intros [? ?].
  - intros H.
    destruct (lookup_path (core_dir repo_root) (fs w)) as [c|] eqn:Hc.
    2:{ by rewrite bundle_server_no_core. }
    destruct (lookup_path (bundled_server repo_root) (fs w)) as [a|] eqn:Ha.
    2:{ rewrite bundle_server_no_artifact; [done|by rewrite Hc|done]. }
    destruct H as [H|[H|H]]; try done.
    rewrite bundle_server_no_bin; [done|by rewrite Hc|by rewrite Ha|done].
Qed.

(** C8, as amended.  After a run that returns [True] an entry is at
    [./pmxt/_server/__init__.py]: the empty regular file when nothing was
    there before the run, and otherwise what was there, unchanged. *)
Theorem C8_marker_after_run w w' :
  bundle_server repo_root w = Ok true w' →
  lookup_path (target_dir repo_root </> "__init__.py") (fs w')
  = Some (default (File "")
            (lookup_path (target_dir repo_root </> "__init__.py") (fs w))).
Proof.
  intros (data & b & fs1 & t & t' & _ & _ & _ & Hmk & Ht & Hbi & ->)
    %bundle_server_true.
  destruct (bundle_into_Some _ _ _ _ Hbi)
    as (data' & bb & sc & _ & _ & _ & _ & _ & ->).
  rewrite (before_run_below _ _ _ _ _ Hmk Ht) by done. cbn [fs].
  rewrite lookup_path_graft by eauto. simpl.
  rewrite lookup_insert_eq. simpl. by destruct (t !! "__init__.py").
Qed.

(** C10.  A regular file named [__pycache__] in the server subdirectory
    is still there, with its bytes, after a run that returns [True], next
    to the entry [bundled.js]. *)
Theorem C10_pycache_file_survives w w' d :
  bundle_server repo_root w = Ok true w' →
  lookup_path (server_target repo_root </> "__pycache__") (fs w)
  = Some (File d) →
  lookup_path (server_target repo_root </> "__pycache__") (fs w')
  = Some (File d) ∧
  is_Some (lookup_path (server_target repo_root </> "bundled.js") (fs w')).
Proof.
  intros (data & c & s' & _ & Hs' & _ & _ & Hx)%server_after_run Hd.
  rewrite !(lookup_path_snoc _ _ _ _ Hs'), !Hx.
  rewrite decide_False, !decide_True by done. eauto.
Qed.
End Claims.

(** C9.  The three checks ask whether something is at the path, not what it
    is: when something is at each of the three paths, [bundle_server] never
    returns [False].  With a directory at the artifact path the run makes
    the target directory and its server subdirectory and then raises in the
    copy; with a regular file at the bin path it also copies the artifact
    and then raises in the copy of bin. *)
Theorem C9_checks_ignore_kinds :
  (∀ repo_root w w',
     is_Some (lookup_path (core_dir repo_root) (fs w)) →
     is_Some (lookup_path (bundled_server repo_root) (fs w)) →
     is_Some (lookup_path (bin_dir repo_root) (fs w)) →
     bundle_server repo_root w ≠ Ok false w') ∧
  (is_dir_node (lookup_path (bundled_server sample_root) fs_artifact_dir)
   = true ∧
   lookup_path (target_dir sample_root) fs_artifact_dir = None ∧
   bundle_server sample_root (quiet fs_artifact_dir)
   = Raise IsADirectoryError
       (World fs_artifact_dir_after
          ["Copying bundled server from /repo/core/dist/server/bundled.js..."]
          []) ∧
   lookup_path (server_target sample_root) fs_artifact_dir_after
   = Some (Dir ∅)) ∧
  (is_file_node (lookup_path (bin_dir sample_root) fs_bin_file) = true ∧
   lookup_path (target_dir sample_root) fs_bin_file = None ∧
   bundle_server sample_root (quiet fs_bin_file)
   = Raise NotADirectoryError (copied fs_bin_file_after) ∧
   lookup_path (server_target sample_root </> "bundled.js") fs_bin_file_after
   = Some (File "serve();")).
Proof.
  split; [apply bundle_server_not_false|].
  split; repeat split; vm_compute; reflexivity.
Qed.

(** ** The claims at the sample file systems *)

(** A first run on a fresh checkout. *)
Lemma C1_first_run_witness :
  ∃ w', bundle_server sample_root (quiet fs_first) = Ok true w' ∧
        lookup_path (target_dir sample_root) (fs w')
        = Some (Dir (fresh_target "serve();" sample_bin)).
Proof.
  destruct (C1_first_run_builds_target sample_root (quiet fs_first)
              "serve();" sample_bin)
    as (w' & Hrun & Htarget & _); try (vm_compute; reflexivity).
  { vm_compute. repeat constructor. }
  exists w'. split; [exact Hrun | exact Htarget].
Defined.

(** C1 as it is written fails where [./pmxt] is a regular file: the core
    directory, the artifact and the bin directory are there, nothing is at
    [./pmxt/_server], and the run raises when it makes the target
    directory. *)
Lemma C1_counterexample :
  is_dir_node (lookup_path (core_dir sample_root) fs_pmxt_file) = true ∧
  is_file_node (lookup_path (bundled_server sample_root) fs_pmxt_file)
  = true ∧
  is_dir_node (lookup_path (bin_dir sample_root) fs_pmxt_file) = true ∧
  lookup_path (target_dir sample_root) fs_pmxt_file = None ∧
  bundle_server sample_root (quiet fs_pmxt_file)
  = Raise NotADirectoryError (quiet fs_pmxt_file) ∧
  ¬ ∃ w', bundle_server sample_root (quiet fs_pmxt_file) = Ok true w'.
Proof.
  assert (bundle_server sample_root (quiet fs_pmxt_file)
          = Raise NotADirectoryError (quiet fs_pmxt_file)) as H
    by (vm_compute; reflexivity).
  repeat split; try (vm_compute; reflexivity).
  intros [w' Hw']. rewrite H in Hw'. discriminate.
Qed.

(** The run on the stale checkout and the server subdirectory it leaves. *)
Lemma C2_server_directory_witness :
  bundle_server sample_root (quiet fs_stale) = Ok true (copied fs_stale_after)
  ∧ ∃ s', lookup_path (server_target sample_root) fs_stale_after
          = Some (Dir s') ∧
          s' !! "bundled.js" = Some (File "serve();") ∧
          s' !! "__pycache__" = Some (File "not a cache") ∧
          s' !! "bundled.js.map" = None ∧
          s' !! "node_modules" = None.
Proof.
  assert (bundle_server sample_root (quiet fs_stale)
          = Ok true (copied fs_stale_after)) as Hrun
    by (vm_compute; reflexivity).
  split; [exact Hrun|].
  destruct (C2_server_directory_after_run sample_root (quiet fs_stale)
              (copied fs_stale_after) Hrun)
    as (data & s' & Hdata & Hs' & Hx).
  exists s'. split; [exact Hs'|]. rewrite !Hx.
  vm_compute in Hdata. injection Hdata as <-.
  repeat split; vm_compute; reflexivity.
Defined.

(** C2 as it is written fails in two ways.  Where a regular file named
    [__pycache__] is in the server subdirectory, the run returns [True] and
    the file is still there, a second regular file that is no cache
    directory.  Where a directory named [bundled.js] is in the server
    subdirectory, the run returns [True] and the only entry of the server
    subdirectory is that directory, with the artifact inside: no regular
    file [bundled.js] is in the server subdirectory. *)
Lemma C2_counterexample :
  (bundle_server sample_root (quiet fs_stale)
   = Ok true (copied fs_stale_after)
   ∧ lookup_path (server_target sample_root </> "__pycache__") fs_stale_after
     = Some (File "not a cache")
   ∧ lookup_path (server_target sample_root </> "bundled.js") fs_stale_after
     = Some (File "serve();"))
  ∧ (bundle_server sample_root (quiet fs_bundled_dir)
     = Ok true (copied fs_bundled_dir_after)
     ∧ lookup_path (server_target sample_root </> "bundled.js")
         fs_bundled_dir_after
       = Some (Dir {[ "old.js" := File "old();";
                      "bundled.js" := File "serve();" ]})
     ∧ lookup_path (server_target sample_root) fs_bundled_dir_after
       = Some (Dir {[ "bundled.js" :=
                        Dir {[ "old.js" := File "old();";
                               "bundled.js" := File "serve();" ]} ]})).
Proof. repeat split; vm_compute; reflexivity. Qed.

(** The run over the stale destination bin directory: the file that was
    only in the destination is gone. *)
Lemma C3_bin_witness :
  lookup_path (target_dir sample_root </> "bin" </> "removed-upstream")
    fs_stale
  = Some (File "gone") ∧
  ∃ w', bundle_server sample_root (quiet fs_stale) = Ok true w' ∧
        lookup_path (target_dir sample_root </> "bin") (fs w')
        = Some (Dir sample_bin) ∧
        lookup_path (target_dir sample_root </> "bin" </> "removed-upstream")
          (fs w')
        = None.
Proof.
  split; [vm_compute; reflexivity|].
  destruct (C3_bin_is_replaced_by_source sample_root (quiet fs_stale))
    as [_ Hrun].
  destruct (Hrun "serve();" sample_bin
              {[ "pmxt-server" := File "old";
                 "removed-upstream" := File "gone" ]})
    as (w' & Hw' & Hbin & Hbelow); try (vm_compute; reflexivity).
  exists w'. split; [exact Hw'|]. split; [exact Hbin|].
  etrans; [exact (Hbelow ["removed-upstream"])|]. vm_compute. reflexivity.
Defined.

(** A checkout without the core directory. *)
Lemma C4_missing_core_witness :
  bundle_server sample_root (quiet fs_no_core)
  = Ok false
      (World fs_no_core []
         ["Error: core directory not found at /repo/core";
          "This script must be run from the monorepo structure"]).
Proof.
  etrans; [apply C4_missing_core_fails_without_change|];
    vm_compute; reflexivity.
Defined.

(** A checkout where the server has not been built, and one without the
    bin directory. *)
Lemma C5_missing_input_witness :
  bundle_server sample_root (quiet fs_no_artifact)
  = Ok false (World fs_no_artifact [] (artifact_missing sample_root)) ∧
  bundle_server sample_root (quiet fs_no_bin)
  = Ok false (World fs_no_bin [] (bin_missing sample_root)).
Proof.
  split.
  - etrans; [apply C5_missing_input_fails_without_change|].
    + vm_compute. eauto.
    + left. vm_compute. reflexivity.
    + vm_compute. reflexivity.
  - etrans; [apply C5_missing_input_fails_without_change|].
    + vm_compute. eauto.
    + right. vm_compute. reflexivity.
    + vm_compute. reflexivity.
Defined.

(** Two runs on the stale checkout. *)
Lemma C6_second_run_witness :
  ∃ w2, bundle_server sample_root (copied fs_stale_after) = Ok true w2 ∧
        fs w2 = fs_stale_after.
Proof.
  destruct (C6_second_run_changes_nothing sample_root (quiet fs_stale)
              (copied fs_stale_after))
    as (_ & w2 & Hrun & Hfs); [vm_compute; reflexivity|].
  exists w2. split; [exact Hrun | exact Hfs].
Defined.

(** C6 as it is written fails where [./pmxt] is a regular file: the core
    directory, the artifact and the bin directory are there, the first run
    raises when it makes the target directory and changes nothing, and the
    second run, on the same state, raises again: it does not return
    [True]. *)
Lemma C6_counterexample :
  is_dir_node (lookup_path (core_dir sample_root) fs_pmxt_file) = true ∧
  is_file_node (lookup_path (bundled_server sample_root) fs_pmxt_file)
  = true ∧
  is_dir_node (lookup_path (bin_dir sample_root) fs_pmxt_file) = true ∧
  bundle_server sample_root (quiet fs_pmxt_file)
  = Raise NotADirectoryError (quiet fs_pmxt_file) ∧
  bundle_server sample_root
    (outcome_world (bundle_server sample_root (quiet fs_pmxt_file)))
  = Raise NotADirectoryError (quiet fs_pmxt_file) ∧
  ¬ ∃ w2, bundle_server sample_root
            (outcome_world (bundle_server sample_root (quiet fs_pmxt_file)))
          = Ok true w2.
Proof.
  assert (bundle_server sample_root
            (outcome_world (bundle_server sample_root (quiet fs_pmxt_file)))
          = Raise NotADirectoryError (quiet fs_pmxt_file)) as H
    by (vm_compute; reflexivity).
  repeat split; try (vm_compute; reflexivity).
  intros [w2 Hw2]. rewrite H in Hw2. discriminate.
Qed.

(** The marker of a first run is empty. *)
Lemma C8_marker_witness :
  lookup_path (target_dir sample_root </> "__init__.py") fs_first_after
  = Some (File "").
Proof.
  etrans; [apply (C8_marker_after_run sample_root (quiet fs_first)
                    (copied fs_first_after))|];
    vm_compute; reflexivity.
Defined.

(** C8 as it is written fails where [__init__.py] is there with bytes in
    it: the run returns [True] and the marker is not empty. *)
Lemma C8_counterexample :
  bundle_server sample_root (quiet fs_stale) = Ok true (copied fs_stale_after)
  ∧ lookup_path (target_dir sample_root </> "__init__.py") fs_stale_after
    = Some (File "# edited by hand")
  ∧ File "# edited by hand" ≠ File "".
Proof. repeat split; try (vm_compute; reflexivity). discriminate. Qed.

(** The regular file named [__pycache__] of the stale checkout. *)
Lemma C10_pycache_witness :
  lookup_path (server_target sample_root </> "__pycache__") fs_stale
  = Some (File "not a cache") ∧
  lookup_path (server_target sample_root </> "__pycache__") fs_stale_after
  = Some (File "not a cache").
Proof.
  assert (lookup_path (server_target sample_root </> "__pycache__") fs_stale
          = Some (File "not a cache")) as Hbefore
    by (vm_compute; reflexivity).
  split; [exact Hbefore|].
  apply (C10_pycache_file_survives sample_root (quiet fs_stale)
           (copied fs_stale_after) "not a cache");
    [vm_compute; reflexivity | exact Hbefore].
Defined.

(** ** Further properties of a run *)

(** [makedirs] gets through only when no regular file is on its way. *)
Lemma makedirs_inr_inv p o n' :
  makedirs p o = inr n' →
  Forall (λ q, is_file_node (o ≫= lookup_path q) = false) (parents p) ∧
  is_file_node (o ≫= lookup_path p) = false.
Proof.
  revert o n'. induction p as [|x p IH]; intros o n' H.
  - split; [constructor|]. by destruct o as [[?|?]|].
  - destruct o as [[?|m]|]; [done| |].
    + simpl in H. destruct (makedirs p (m !! x)) as [e|c] eqn:Hc; [done|].
      destruct (IH _ _ Hc) as [Hpar Hp]. split; [|done].
      simpl. constructor; [done|]. by apply Forall_fmap.
    + split; [|done]. apply Forall_forall. by intros q _.
Qed.

Lemma makedirs_blocked p o :
  Exists (λ q, is_file_node (o ≫= lookup_path q) = true) (parents p ++ [p]) →
  ∃ e, makedirs p o = inl e.
Proof.
  intros Hex. destruct (makedirs p o) as [e|n'] eqn:Hmk; [eauto|].
  destruct (makedirs_inr_inv _ _ _ Hmk) as [Hpar Hp].
  apply Exists_app in Hex as [Hex|Hex].
  - apply Exists_exists in Hex as (q & Hq & Hfile).
    rewrite Forall_forall in Hpar. rewrite (Hpar q Hq) in Hfile. done.
  - apply Exists_cons in Hex as [Hfile|Hex]; [congruence|].
    by apply Exists_nil in Hex.
Qed.

(** The copies never get through with something else than a regular file
    at the artifact path and a directory at the bin path. *)
Lemma bundle_into_kinds artifact bin t :
  is_file_node artifact = false ∨ is_dir_node bin = false →
  bundle_into artifact bin t = None.
Proof.
  intros H. unfold bundle_into, fill_target.
  destruct artifact as [[data|?]|], bin as [[?|?]|]; simpl in H;
    try (by destruct H);
    destruct (t !! "server") as [[?|?]|]; try done;
    destruct (copy_into _ _); try done;
    by destruct (t !! "bin") as [[?|?]|].
Qed.

(** *** What a call leaves alone *)

Lemma diverge_app_l p q r : diverge p q = true → diverge (p ++ r) q = true.
Proof. rewrite !(diverge_sym _ q). apply diverge_app_r. Qed.

Lemma inside_refl T : inside T T.
Proof. by intros p. Qed.

Lemma inside_snoc T r x : inside T r → inside T (r </> x).
Proof. intros H p Hp. by apply diverge_app_l, H. Qed.

(** A system call at [r] changes nothing at a path that diverges from
    [r]. *)
Lemma at_path_frame f r o v p :
  at_path f r o = inr v → diverge r p = true →
  v ≫= lookup_path p = o ≫= lookup_path p.
Proof.
  revert o v p. induction r as [|x r IH]; intros o v [|y p] H Hd;
    simpl in Hd; try done.
  simpl in H. destruct o as [[?|m]|]; try done.
  destruct (at_path f r (m !! x)) as [e|v'] eqn:Hat; [done|].
  injection H as <-. simpl. destruct (decide (x = y)) as [->|Hne].
  - rewrite lookup_partial_alter_eq. by apply IH.
  - by rewrite lookup_partial_alter_ne.
Qed.

Lemma os_op_frame f r n n' p :
  os_op f r n = inr n' → diverge r p = true →
  lookup_path p n' = lookup_path p n.
Proof.
  unfold os_op. intros H Hd.
  destruct (at_path f r (Some n)) as [e|[c|]] eqn:Hat; try done.
  injection H as <-. apply (at_path_frame _ _ _ _ _ Hat Hd).
Qed.

Section Keeps.
Context (T : path).

Lemma keeps_ret {A} (a : A) : keeps_outside T (ret a).
Proof. by intros w p _. Qed.

Lemma keeps_raise {A} e : keeps_outside T (raise (A:=A) e).
Proof. by intros w p _. Qed.

Lemma keeps_bind {A B} (c : M A) (k : A → M B) :
  keeps_outside T c →
  (∀ w a w', c w = Ok a w' → keeps_outside T (k a)) →
  keeps_outside T (bind c k).
Proof.
  intros Hc Hk w p Hp. unfold bind. specialize (Hc w p Hp).
  destruct (c w) as [a w'|e w'] eqn:Hcw; simpl in Hc; [|done].
  rewrite <-Hc. by apply (Hk w a w').
Qed.

Lemma keeps_print s : keeps_outside T (print s).
Proof. by intros w p _. Qed.

Lemma keeps_print_stderr s : keeps_outside T (print_stderr s).
Proof. by intros w p _. Qed.

Lemma keeps_exists r : keeps_outside T (Path_exists r).
Proof. by intros w p _. Qed.

Lemma keeps_is_dir r : keeps_outside T (Path_is_dir r).
Proof. by intros w p _. Qed.

Lemma keeps_read_file r : keeps_outside T (read_file r).
Proof.
  intros w p _. unfold read_file.
  by destruct (lookup_path r (fs w)) as [[?|?]|].
Qed.

Lemma keeps_iterdir r : keeps_outside T (Path_iterdir r).
Proof.
  intros w p _. unfold Path_iterdir.
  by destruct (lookup_path r (fs w)) as [[?|?]|].
Qed.

Lemma keeps_syscall (g : node → exn + node) :
  (∀ n n' p, g n = inr n' → diverge T p = true →
             lookup_path p n' = lookup_path p n) →
  keeps_outside T (syscall g).
Proof.
  intros Hg w p Hp. unfold syscall.
  destruct (g (fs w)) as [e|n'] eqn:Hgw; [done|]. simpl. eauto.
Qed.

Lemma keeps_os_op f r : inside T r → keeps_outside T (syscall (os_op f r)).
Proof.
  intros Hr. apply keeps_syscall. intros n n' p H Hp.
  eapply os_op_frame; eauto.
Qed.

Lemma keeps_mkdir parents exist_ok r :
  inside T r → (parents = true → exist_ok = true) →
  keeps_outside T (Path_mkdir parents exist_ok r).
Proof.
  intros Hr Hpe. apply keeps_syscall. intros n n' p H Hp.
  destruct parents.
  - rewrite (Hpe eq_refl), Path_mkdir_fuel_parents in H by done.
    by rewrite (makedirs_frame _ _ _ _ H (Hr p Hp)).
  - rewrite Path_mkdir_fuel_unfold in H. simpl in H.
    destruct (os_op mkdir_entry r n) as [e|n1] eqn:Hos.
    + destruct e; try done;
        by destruct (negb exist_ok || _); simplify_eq.
    + injection H as <-. eapply os_op_frame; eauto.
Qed.

Lemma keeps_copy src dst :
  inside T dst → keeps_outside T (shutil_copy src dst).
Proof.
  intros Hd. unfold shutil_copy.
  apply keeps_bind; [apply keeps_is_dir|]. intros _ d _ _.
  apply keeps_bind; [apply keeps_exists|]. intros _ e _ _.
  destruct (e && _); [apply keeps_raise|].
  apply keeps_bind; [apply keeps_read_file|]. intros _ data _ _.
  apply keeps_os_op. destruct d; [by apply inside_snoc|done].
Qed.

Lemma keeps_copytree src dst :
  inside T dst → keeps_outside T (shutil_copytree src dst).
Proof.
  intros Hd w p Hp. unfold shutil_copytree.
  destruct (lookup_path src (fs w)) as [[?|m]|]; try done.
  destruct (is_some (lookup_path dst (fs w))); [done|].
  revert w p Hp. apply keeps_bind.
  - apply keeps_syscall. intros n n' p H Hp.
    by rewrite (makedirs_frame _ _ _ _ H (Hd p Hp)).
  - intros _ _ _ _. by apply keeps_os_op.
Qed.

Lemma keeps_sweep_item item :
  inside T item → keeps_outside T (sweep_item item).
Proof.
  intros Hi. unfold sweep_item. destruct (_ && _); [|apply keeps_ret].
  apply keeps_bind; [apply keeps_is_dir|]. intros _ d _ _.
  destruct d; by apply keeps_os_op.
Qed.

Lemma keeps_for_each {A} (l : list A) (body : A → M unit) :
  Forall (λ x, keeps_outside T (body x)) l →
  keeps_outside T (for_each l body).
Proof.
  induction 1 as [|x l Hx Hl IH]; simpl; [apply keeps_ret|].
  apply keeps_bind; [done|]. by intros _ _ _ _.
Qed.
End Keeps.

(** *** What a call prints *)

Lemma prints_silent {A} (c : M A) l :
  (∀ w, stdout (outcome_world (c w)) = stdout w ∧
        stderr (outcome_world (c w)) = stderr w) →
  prints l c.
Proof.
  intros H w. destruct (H w) as [Ho He]. split; [done|].
  exists []. split; [apply prefix_nil|]. by rewrite app_nil_r.
Qed.

Lemma prints_ret {A} (a : A) l : prints l (ret a).
Proof. by apply prints_silent. Qed.

Lemma prints_raise {A} e l : prints l (raise (A:=A) e).
Proof. by apply prints_silent. Qed.

Lemma prints_syscall g l : prints l (syscall g).
Proof.
  apply prints_silent. intros w. unfold syscall. by destruct (g (fs w)).
Qed.

Lemma prints_exists r l : prints l (Path_exists r).
Proof. by apply prints_silent. Qed.

Lemma prints_is_dir r l : prints l (Path_is_dir r).
Proof. by apply prints_silent. Qed.

Lemma prints_read_file r l : prints l (read_file r).
Proof.
  apply prints_silent. intros w. unfold read_file.
  by destruct (lookup_path r (fs w)) as [[?|?]|].
Qed.

Lemma prints_iterdir r l : prints l (Path_iterdir r).
Proof.
  apply prints_silent. intros w. unfold Path_iterdir.
  by destruct (lookup_path r (fs w)) as [[?|?]|].
Qed.

Lemma prints_bind {A B} (c : M A) (k : A → M B) l :
  prints [] c → (∀ a, prints l (k a)) → prints l (bind c k).
Proof.
  intros Hc Hk w. unfold bind. destruct (Hc w) as (He & l' & Hl' & Ho).
  apply prefix_nil_inv in Hl' as ->. rewrite app_nil_r in Ho.
  destruct (c w) as [a w1|e w1]; simpl in *.
  - destruct (Hk a w1) as (He' & l' & Hl' & Ho').
    rewrite He', Ho', He, Ho. eauto.
  - split; [done|]. exists []. split; [apply prefix_nil|].
    by rewrite app_nil_r.
Qed.

Lemma prints_print {B} s (k : M B) l :
  prints l k → prints (s :: l) (print s ;; k).
Proof.
  intros Hk w. unfold bind, print.
  destruct (Hk (World (fs w) (stdout w ++ [s]) (stderr w)))
    as (He & l' & Hl' & Ho).
  cbn [fs stdout stderr] in *. split; [done|].
  exists (s :: l'). split; [by apply prefix_cons|].
  by rewrite Ho, <-app_assoc.
Qed.

Lemma prints_copy src dst l : prints l (shutil_copy src dst).
Proof.
  unfold shutil_copy.
  apply prints_bind; [apply prints_is_dir|]. intros d.
  apply prints_bind; [apply prints_exists|]. intros e.
  destruct (e && _); [apply prints_raise|].
  apply prints_bind; [apply prints_read_file|]. intros data.
  apply prints_syscall.
Qed.

Lemma prints_copytree src dst l : prints l (shutil_copytree src dst).
Proof.
  unfold shutil_copytree. intros w.
  destruct (lookup_path src (fs w)) as [[?|m]|] eqn:Hs;
    try (by apply (prints_raise _ l w)).
  destruct (is_some (lookup_path dst (fs w)));
    [by apply (prints_raise _ l w)|].
  apply (prints_bind _ _ l); [apply prints_syscall|]. intros _.
  apply prints_syscall.
Qed.

Lemma prints_sweep_item item l : prints l (sweep_item item).
Proof.
  unfold sweep_item. destruct (_ && _); [|apply prints_ret].
  apply prints_bind; [apply prints_is_dir|]. intros d.
  destruct d; apply prints_syscall.
Qed.

Lemma prints_for_each {A} (xs : list A) (body : A → M unit) l :
  (∀ x, prints [] (body x)) → prints l (for_each xs body).
Proof.
  intros Hb. induction xs as [|x xs IH]; simpl; [apply prints_ret|].
  by apply prints_bind.
Qed.

Section Further.
Context (repo_root : path).

(** A run that does not return [False] prints nothing on stderr and, on
    stdout, some first lines of the two progress lines. *)
Lemma bundle_server_prints w :
  (∃ w', bundle_server repo_root w = Ok false w') ∨
  stderr (outcome_world (bundle_server repo_root w)) = stderr w ∧
  ∃ l, l `prefix_of` progress repo_root ∧
       stdout (outcome_world (bundle_server repo_root w)) = stdout w ++ l.
Proof.
  destruct (lookup_path (core_dir repo_root) (fs w)) as [c|] eqn:Hc.
  2:{ left. rewrite bundle_server_no_core by done. eauto. }
  destruct (lookup_path (bundled_server repo_root) (fs w)) as [a|] eqn:Ha.
  2:{ left. rewrite bundle_server_no_artifact by eauto. eauto. }
  destruct (lookup_path (bin_dir repo_root) (fs w)) as [b|] eqn:Hb.
  2:{ left. rewrite bundle_server_no_bin by eauto. eauto. }
  right. remember (bundle_server repo_root w) as r eqn:Hr.
  unfold bundle_server in Hr.
  rewrite bind_eq in Hr. unfold Path_exists at 1 in Hr. rewrite Hc in Hr.
  cbn [is_some negb] in Hr. cbv iota in Hr.
  rewrite bind_eq in Hr. unfold Path_exists at 1 in Hr. rewrite Ha in Hr.
  cbn [is_some negb] in Hr. cbv iota in Hr.
  rewrite bind_eq in Hr. unfold Path_exists at 1 in Hr. rewrite Hb in Hr.
  cbn [is_some negb] in Hr. cbv iota in Hr.
  rewrite Hr. clear.
  match goal with |- _ ∧ ∃ l, _ ∧ stdout (outcome_world (?c w)) = _ =>
    assert (prints (progress repo_root) c) as Hp; [|apply Hp] end.
  apply prints_bind; [apply prints_syscall|]. intros _.
  apply prints_print.
  apply prints_bind; [apply prints_syscall|]. intros _.
  apply prints_bind; [apply prints_copy|]. intros _.
  apply prints_print.
  apply prints_bind; [apply prints_exists|]. intros e4.
  apply prints_bind.
  { destruct e4; [apply prints_syscall|apply prints_ret]. }
  intros _.
  apply prints_bind; [apply prints_copytree|]. intros _.
  apply prints_bind; [apply prints_iterdir|]. intros items.
  apply prints_bind.
  { apply prints_for_each. intros x. apply prints_sweep_item. }
  intros _.
  apply prints_bind; [apply prints_syscall|]. intros _.
  apply prints_ret.
Qed.

(** What is at and below the target directory before the run, read after
    the target directory is made. *)
Lemma target_entries_before w fs1 t :
  makedirs (target_dir repo_root) (Some (fs w)) = inr fs1 →
  lookup_path (target_dir repo_root) fs1 = Some (Dir t) →
  lookup_path (target_dir repo_root </> "server") (fs w) = t !! "server" ∧
  lookup_path (target_dir repo_root </> "bin") (fs w) = t !! "bin" ∧
  lookup_path (server_target repo_root </> "bundled.js" </> "bundled.js")
    (fs w)
  = lookup_path ["server"; "bundled.js"; "bundled.js"] (Dir t).
Proof.
  intros Hmk Ht. unfold server_target.
  rewrite <-!app_assoc. cbn [app].
  rewrite !(before_run_below _ _ _ _ _ Hmk Ht) by done.
  by rewrite !lookup_path_single.
Qed.

(** X1.  A run returns [False] only from one of the three checks: the file
    system and stdout are as before the run, and stderr has grown by the
    diagnostic of a check whose path has nothing at it. *)
Theorem X1_false_return_names_missing_input w w' :
  bundle_server repo_root w = Ok false w' →
  fs w' = fs w ∧ stdout w' = stdout w ∧
  (lookup_path (core_dir repo_root) (fs w) = None
   ∧ stderr w' = stderr w ++ core_missing repo_root
   ∨ lookup_path (bundled_server repo_root) (fs w) = None
     ∧ stderr w' = stderr w ++ artifact_missing repo_root
   ∨ lookup_path (bin_dir repo_root) (fs w) = None
     ∧ stderr w' = stderr w ++ bin_missing repo_root).
Proof.
  intros H.
  destruct (lookup_path (core_dir repo_root) (fs w)) as [c|] eqn:Hc.
  2:{ rewrite bundle_server_no_core in H by done. injection H as <-.
      split; [done|]. split; [done|]. left. done. }
  destruct (lookup_path (bundled_server repo_root) (fs w)) as [a|] eqn:Ha.
  2:{ rewrite bundle_server_no_artifact in H by eauto. injection H as <-.
      split; [done|]. split; [done|]. right. left. done. }
  destruct (lookup_path (bin_dir repo_root) (fs w)) as [b|] eqn:Hb.
  2:{ rewrite bundle_server_no_bin in H by eauto. injection H as <-.
      split; [done|]. split; [done|]. right. right. done. }
  exfalso. eapply (bundle_server_not_false repo_root w w'); eauto.
Qed.

(** X2.  Whatever the outcome of a run, a return or an exception, every
    path that is neither at or below the target directory nor one of its
    ancestors resolves after the run as it did before: the run writes
    below [./pmxt/_server] and makes its ancestors, nothing else. *)
Theorem X2_nothing_outside_target_changes w p :
  diverge (target_dir repo_root) p = true →
  lookup_path p (fs (outcome_world (bundle_server repo_root w)))
  = lookup_path p (fs w).
Proof.
  revert w p.
  change (keeps_outside (target_dir repo_root) (bundle_server repo_root)).
  pose proof (inside_refl (target_dir repo_root)) as HT.
  unfold bundle_server, server_target.
  apply keeps_bind; [apply keeps_exists|]. intros _ e1 _ _.
  destruct e1; simpl.
  2:{ repeat (apply keeps_bind; [apply keeps_print_stderr|intros _ _ _ _]).
      apply keeps_ret. }
  apply keeps_bind; [apply keeps_exists|]. intros _ e2 _ _.
  destruct e2; simpl.
  2:{ repeat (apply keeps_bind; [apply keeps_print_stderr|intros _ _ _ _]).
      apply keeps_ret. }
  apply keeps_bind; [apply keeps_exists|]. intros _ e3 _ _.
  destruct e3; simpl.
  2:{ repeat (apply keeps_bind; [apply keeps_print_stderr|intros _ _ _ _]).
      apply keeps_ret. }
  apply keeps_bind; [by apply keeps_mkdir|]. intros _ _ _ _.
  apply keeps_bind; [apply keeps_print|]. intros _ _ _ _.
  apply keeps_bind; [apply keeps_mkdir; [by apply inside_snoc|done]|].
  intros _ _ _ _.
  apply keeps_bind; [by apply keeps_copy; do 2 apply inside_snoc|].
  intros _ _ _ _.
  apply keeps_bind; [apply keeps_print|]. intros _ _ _ _.
  apply keeps_bind; [apply keeps_exists|]. intros _ e4 _ _.
  apply keeps_bind.
  { destruct e4; [by apply keeps_os_op, inside_snoc|apply keeps_ret]. }
  intros _ _ _ _.
  apply keeps_bind; [by apply keeps_copytree, inside_snoc|].
  intros _ _ _ _.
  apply keeps_bind; [apply keeps_iterdir|]. intros w items w' Hit.
  apply keeps_bind.
  { apply keeps_for_each. unfold Path_iterdir in Hit.
    destruct (lookup_path _ (fs w)) as [[?|m]|]; try done.
    injection Hit as <- _. apply Forall_fmap, Forall_forall.
    intros x _. simpl. by apply keeps_sweep_item; do 2 apply inside_snoc. }
  intros _ _ _ _.
  apply keeps_bind; [by apply keeps_os_op, inside_snoc|]. intros _ _ _ _.
  apply keeps_ret.
Qed.

(** X3.  A run that returns [True] has printed exactly the two progress
    lines on stdout, in the order of the two copies, and nothing on
    stderr. *)
Theorem X3_true_return_prints_progress w w' :
  bundle_server repo_root w = Ok true w' →
  stdout w' = stdout w ++ progress repo_root ∧ stderr w' = stderr w.
Proof.
  intros (data & b & fs1 & t & t' & _ & _ & _ & _ & _ & _ & ->)
    %bundle_server_true.
  done.
Qed.

(** X4.  When a run returns [True], read off the file system it starts
    on: the artifact is a regular file, the source bin is a directory, no
    regular file is at the target directory, at one of its ancestors, at
    its [server] entry or at its [bin] entry, and the destination
    [server/bundled.js/bundled.js] is no directory. *)
Theorem X4_success_criterion w :
  (∃ w', bundle_server repo_root w = Ok true w') ↔
  is_file_node (lookup_path (bundled_server repo_root) (fs w)) = true ∧
  is_dir_node (lookup_path (bin_dir repo_root) (fs w)) = true ∧
  Forall (λ q, is_file_node (lookup_path q (fs w)) = false)
    (parents (target_dir repo_root)
       ++ [target_dir repo_root; target_dir repo_root </> "server";
           target_dir repo_root </> "bin"]) ∧
  is_dir_node
    (lookup_path (server_target repo_root </> "bundled.js" </> "bundled.js")
       (fs w)) = false.
Proof.
  split.
  - intros [w' (data & b & fs1 & t & t' & _ & Ha & Hb & Hmk & Ht & Hbi & _)
              %bundle_server_true].
    destruct (makedirs_inr_inv _ _ _ Hmk) as [Hpar HT].
    destruct (target_entries_before _ _ _ Hmk Ht) as (Hs & Hbin & Hbb).
    destruct (proj1 (bundle_into_is_Some data b t)) as (Hs' & Hbin' & Hbb');
      [rewrite Hbi; eauto|].
    rewrite Ha, Hb, Hbb. split; [done|]. split; [done|]. split; [|done].
    apply Forall_app. split; [done|].
    repeat constructor; [done|by rewrite Hs|by rewrite Hbin].
  - intros (Ha & Hb & Hall & Hbb).
    apply Forall_app in Hall as [Hpar Hrest].
    apply Forall_cons in Hrest as [HT Hrest].
    apply Forall_cons in Hrest as [Hs Hrest].
    apply Forall_cons in Hrest as [Hbin _].
    destruct (lookup_path (bundled_server repo_root) (fs w))
      as [[data|?]|] eqn:Ha'; try done.
    destruct (lookup_path (bin_dir repo_root) (fs w))
      as [[?|b]|] eqn:Hb'; try done.
    destruct (makedirs_ok (target_dir repo_root) (Some (fs w)))
      as [fs1 Hmk]; [done..|].
    pose proof (bundle_server_run repo_root w) as Hr.
    rewrite Ha', Hb', Hmk in Hr.
    destruct Hr as (t & Ht & Hr); [|eauto..].
    { apply (lookup_path_prefix _ ["dist"; "server"; "bundled.js"]).
      unfold bundled_server, server_dist in Ha'.
      rewrite <-!app_assoc in Ha'. cbn [app] in Ha'. rewrite Ha'. eauto. }
    destruct (target_entries_before _ _ _ Hmk Ht) as (Hs' & Hbin' & Hbb').
    destruct (proj2 (bundle_into_is_Some data b t)) as [t' Ht'].
    { by rewrite <-Hs', <-Hbin', <-Hbb'. }
    rewrite Ht' in Hr. eauto.
Qed.

(** X5.  With the three inputs there and a regular file at the target
    directory or at one of its ancestors, the run raises when it makes the
    target directory: nothing is printed and the file system is as
    before. *)
Theorem X5_blocked_target_raises_unchanged w :
  is_Some (lookup_path (core_dir repo_root) (fs w)) →
  is_Some (lookup_path (bundled_server repo_root) (fs w)) →
  is_Some (lookup_path (bin_dir repo_root) (fs w)) →
  Exists (λ q, is_file_node (lookup_path q (fs w)) = true)
    (parents (target_dir repo_root) ++ [target_dir repo_root]) →
  ∃ e, bundle_server repo_root w = Raise e w.
Proof.
  intros Hc Ha Hb Hex.
  destruct (makedirs_blocked (target_dir repo_root) (Some (fs w)) Hex)
    as [e He].
  pose proof (bundle_server_run repo_root w Hc Ha Hb) as Hr.
  rewrite He in Hr. eauto.
Qed.

(** X6.  A run that returns [True] touches three entries of the target
    directory, [server], [bin] and [__init__.py]: every other entry, and
    all below it, is after the run what it was before. *)
Theorem X6_other_target_entries_untouched w w' x q :
  bundle_server repo_root w = Ok true w' →
  x ≠ "server" → x ≠ "bin" → x ≠ "__init__.py" →
  lookup_path (target_dir repo_root ++ x :: q) (fs w')
  = lookup_path (target_dir repo_root ++ x :: q) (fs w).
Proof.
  intros (data & b & fs1 & t & t' & _ & _ & _ & Hmk & Ht & Hbi & ->)
    %bundle_server_true Hs Hb Hi.
  destruct (bundle_into_Some _ _ _ _ Hbi)
    as (data' & bb & sc & _ & _ & _ & _ & _ & ->).
  rewrite (before_run_below _ _ _ _ _ Hmk Ht) by done. cbn [fs].
  rewrite lookup_path_graft by eauto. simpl.
  by rewrite !lookup_insert_ne by done.
Qed.

(** X7.  The clean-up loop on its own, started on any server directory:
    it never raises, it leaves exactly the entries named [bundled.js] and
    [__pycache__], each as it was, and it prints nothing. *)
Theorem X7_sweep_keeps_named_entries w s :
  lookup_path (server_target repo_root) (fs w) = Some (Dir s) →
  ∃ w' s',
    (items ← Path_iterdir (server_target repo_root);
     for_each items sweep_item) w = Ok tt w' ∧
    lookup_path (server_target repo_root) (fs w') = Some (Dir s') ∧
    (∀ x, s' !! x = if decide (x = "bundled.js" ∨ x = "__pycache__")
                    then s !! x else None) ∧
    stdout w' = stdout w ∧ stderr w' = stderr w.
Proof.
  unfold server_target. intros Hs. rewrite lookup_path_app in Hs.
  destruct (lookup_path (target_dir repo_root) (fs w)) as [c|] eqn:HT;
    [|done].
  simpl in Hs. destruct c as [?|t]; [done|].
  destruct (t !! "server") as [c|] eqn:Hts; [|done]. simpl in Hs.
  injection Hs as ->. destruct w as [n o e]. cbn [fs stdout stderr] in *.
  replace (World n o e)
    with (World (graft (target_dir repo_root) (Dir t) n) o e)
    by (by rewrite graft_id).
  rewrite (focus_sweep _ _ ltac:(eauto) _ _ _ _ _ Hts).
  eexists _, _. split; [done|]. cbn [fs stdout stderr]. split.
  { rewrite lookup_path_graft by eauto. simpl.
    by rewrite lookup_insert_eq. }
  split; [|done]. intros x. apply swept_lookup.
Qed.

(** X8.  With something at each of the three paths, but something else
    than a regular file at the artifact path or something else than a
    directory at the bin path, the run does not return: it raises. *)
Theorem X8_wrong_kind_raises w :
  is_Some (lookup_path (core_dir repo_root) (fs w)) →
  is_Some (lookup_path (bundled_server repo_root) (fs w)) →
  is_Some (lookup_path (bin_dir repo_root) (fs w)) →
  is_file_node (lookup_path (bundled_server repo_root) (fs w)) = false
  ∨ is_dir_node (lookup_path (bin_dir repo_root) (fs w)) = false →
  ∃ e w', bundle_server repo_root w = Raise e w'.
Proof.
  intros Hc Ha Hb Hk.
  pose proof (bundle_server_run repo_root w Hc Ha Hb) as Hr.
  destruct (makedirs _ _) as [e|fs1]; [eauto|].
  destruct Hr as (t & _ & Hr).
  by rewrite (bundle_into_kinds _ _ t Hk) in Hr.
Qed.

(** X9.  A run that raises has printed none of the diagnostics: stderr is
    as before the run, and stdout has grown by none, the first or both of
    the two progress lines. *)
Theorem X9_raise_prints_no_diagnostic w e w' :
  bundle_server repo_root w = Raise e w' →
  stderr w' = stderr w ∧
  ∃ l, l `prefix_of` progress repo_root ∧ stdout w' = stdout w ++ l.
Proof.
  intros H.
  destruct (bundle_server_prints w) as [[w'' Hf]|Hp]; [congruence|].
  by rewrite H in Hp.
Qed.
End Further.

(** ** The further properties at the sample file systems *)

(** The run on the checkout where the server has not been built. *)
Lemma X1_false_return_witness :
  bundle_server sample_root (quiet fs_no_artifact)
  = Ok false (World fs_no_artifact [] (artifact_missing sample_root)) ∧
  lookup_path (bundled_server sample_root) fs_no_artifact = None.
Proof.
  assert (bundle_server sample_root (quiet fs_no_artifact)
          = Ok false (World fs_no_artifact [] (artifact_missing sample_root)))
    as Hrun by (vm_compute; reflexivity).
  split; [exact Hrun|].
  destruct (X1_false_return_names_missing_input sample_root _ _ Hrun)
    as (_ & _ & [[Hcore _]|[[Hart _]|[Hbin _]]]).
  - vm_compute in Hcore. discriminate.
  - exact Hart.
  - vm_compute in Hbin. discriminate.
Defined.

(** The run that raises in the copy of bin leaves the core directory
    alone. *)
Lemma X2_nothing_outside_witness :
  lookup_path (core_dir sample_root)
    (fs (outcome_world (bundle_server sample_root (quiet fs_bin_file))))
  = Some core_bin_file.
Proof.
  etrans; [apply (X2_nothing_outside_target_changes sample_root
                    (quiet fs_bin_file) (core_dir sample_root))|];
    vm_compute; reflexivity.
Defined.

(** The output of the run on the stale checkout. *)
Lemma X3_true_return_witness :
  stdout (copied fs_stale_after)
  = ["Copying bundled server from /repo/core/dist/server/bundled.js...";
     "Copying bin from /repo/core/bin to /repo/sdks/python/pmxt/_server/bin..."]
  ∧ stderr (copied fs_stale_after) = [].
Proof.
  destruct (X3_true_return_prints_progress sample_root (quiet fs_stale)
              (copied fs_stale_after)) as [Hout Herr];
    [vm_compute; reflexivity|].
  split; [etrans; [exact Hout|]; vm_compute; reflexivity | exact Herr].
Defined.

(** The checkout where [./pmxt] is a regular file. *)
Lemma X5_blocked_target_witness :
  ∃ e, bundle_server sample_root (quiet fs_pmxt_file)
       = Raise e (quiet fs_pmxt_file).
Proof.
  apply (X5_blocked_target_raises_unchanged sample_root
           (quiet fs_pmxt_file)); try (vm_compute; eauto).
  apply Exists_exists. exists (script_dir sample_root </> "pmxt").
  split; [vm_compute; repeat constructor | vm_compute; reflexivity].
Defined.

(** The entry [notes.txt] of the target directory. *)
Lemma X6_other_entries_witness :
  lookup_path (target_dir sample_root </> "notes.txt") fs_notes_after
  = Some (File "keep me").
Proof.
  etrans; [apply (X6_other_target_entries_untouched sample_root
                    (quiet fs_notes) (copied fs_notes_after)
                    "notes.txt" []); try done|];
    vm_compute; reflexivity.
Defined.

(** The clean-up loop on the stale checkout. *)
Lemma X7_sweep_witness :
  ∃ w' s',
    (items ← Path_iterdir (server_target sample_root);
     for_each items sweep_item) (quiet fs_stale) = Ok tt w' ∧
    lookup_path (server_target sample_root) (fs w') = Some (Dir s') ∧
    s' !! "bundled.js" = Some (File "old();") ∧
    s' !! "__pycache__" = Some (File "not a cache") ∧
    s' !! "bundled.js.map" = None ∧
    s' !! "node_modules" = None.
Proof.
  destruct (X7_sweep_keeps_named_entries sample_root (quiet fs_stale)
              {[ "bundled.js" := File "old();";
                 "bundled.js.map" := File "{}";
                 "node_modules" := Dir {[ "left.js" := File "" ]};
                 "__pycache__" := File "not a cache" ]})
    as (w' & s' & Hrun & Hs' & Hx & _); [vm_compute; reflexivity|].
  exists w', s'. split; [exact Hrun|]. split; [exact Hs'|].
  rewrite !Hx. repeat split; vm_compute; reflexivity.
Defined.

(** The checkout with a directory at the artifact path. *)
Lemma X8_wrong_kind_witness :
  ∃ e w', bundle_server sample_root (quiet fs_artifact_dir) = Raise e w'.
Proof.
  apply (X8_wrong_kind_raises sample_root (quiet fs_artifact_dir));
    try (vm_compute; eauto).
Defined.

(** The run that raises in the copy of the artifact has printed the first
    progress line. *)
Lemma X9_raise_witness :
  ∃ l, l `prefix_of` progress sample_root ∧
       ["Copying bundled server from /repo/core/dist/server/bundled.js..."]
       = [] ++ l.
Proof.
  destruct (X9_raise_prints_no_diagnostic sample_root
              (quiet fs_artifact_dir) IsADirectoryError
              (World fs_artifact_dir_after
                 ["Copying bundled server from /repo/core/dist/server/bundled.js..."]
                 [])) as [_ Hl];
    [vm_compute; reflexivity | exact Hl].
Defined.
